(** * newsapp: the pagination model and the search handler of [main.go]

    A shallow embedding of [main.go] (package [main]) and the properties of
    its pagination model ([Search]) and of [searchHandler].

    Conventions.
    - Go's [int] is the 64-bit two's complement integer of the usual targets
      (amd64, arm64); it is a [Z] together with the wrap-around of the
      arithmetic that can overflow.
    - Go strings are byte strings: [string] (a list of [ascii]).
    - What the program gets from outside the process (the upstream's answer,
      the JSON decoder and the template engine of the Go library) are
      parameters of the handlers.  *)

From Stdlib Require Import ZArith Lia Bool Ascii String List.
From Stdlib Require Import DecimalString DecimalPos DecimalZ.
From stdpp Require Import base option strings list gmap.

Local Open Scope string_scope.
Local Open Scope Z_scope.

(** ** Go's [int] *)

Module GoInt.

Definition intSize : Z := 64.
Definition minInt : Z := - 2 ^ (intSize - 1).
Definition maxInt : Z := 2 ^ (intSize - 1) - 1.

(** The values of type [int]. *)
Definition is_int (z : Z) : Prop := minInt <= z <= maxInt.

(** Two's complement wrap-around of a mathematical result. *)
Definition wrap (z : Z) : Z := (z - minInt) mod 2 ^ intSize + minInt.

Definition add (a b : Z) : Z := wrap (a + b).
Definition sub (a b : Z) : Z := wrap (a - b).

(** [a / b] on [int], for a divisor other than 0 and -1: the quotient
    truncated toward zero. *)
Definition quo (a b : Z) : Z := Z.quot a b.

End GoInt.

(** ** [float64], as far as line 150 needs it

    A finite [float64] is written [mant * 2 ^ expo]. *)

Module Float64.

Record t := mk { mant : Z; expo : Z }.

(** The number of bits of the significand. *)
Definition prec : Z := 53.

(** [float64(n)] for an [int] [n]: the nearest representable number, ties
    to the even significand. *)
Definition of_int (n : Z) : t :=
  let a := Z.abs n in
  let e := Z.log2 a - (prec - 1) in
  if e <=? 0 then mk n 0
  else
    let ulp := 2 ^ e in
    let q := a / ulp in
    let r := a mod ulp in
    let half := ulp / 2 in
    let q' := if r <? half then q
              else if half <? r then q + 1
              else if Z.even q then q else q + 1 in
    mk (Z.sgn n * q') e.

(** [math.Ceil]: the least integral value not below the argument. *)
Definition Ceil (f : t) : t :=
  if 0 <=? expo f then f
  else mk (- ((- mant f) / 2 ^ (- expo f))) 0.

(** [int(f)]: the fraction is discarded (truncation toward zero).  The
    conversion is only defined by Go for values of [int]'s range; line 150
    stays inside it, see [totalPages_is_int] below. *)
Definition to_int (f : t) : Z :=
  if 0 <=? expo f then mant f * 2 ^ expo f
  else Z.quot (mant f) (2 ^ (- expo f)).

End Float64.

(** [int(math.Ceil(float64(n)))] *)
Definition roundtrip (n : Z) : Z :=
  Float64.to_int (Float64.Ceil (Float64.of_int n)).

(** ** Library functions on strings *)

Definition is_digit (c : ascii) : bool :=
  ((48 <=? N_of_ascii c) && (N_of_ascii c <=? 57))%N.

Definition digit_val (c : ascii) : Z := Z.of_N (N_of_ascii c) - 48.

(** The value of a run of decimal digits, [None] at the first other byte. *)
Fixpoint digits_val (acc : Z) (s : string) : option Z :=
  match s with
  | EmptyString => Some acc
  | String c s' =>
      if is_digit c then digits_val (acc * 10 + digit_val c) s' else None
  end.

(** [strconv.Atoi]: an optional sign, then one decimal digit or more, and the
    value has to fit [int].  [None] is a non-nil error (the handler only
    tests [err != nil]). *)
Definition Atoi (s : string) : option Z :=
  let '(neg, body) :=
    match s with
    | String "-" r => (true, r)
    | String "+" r => (false, r)
    | _ => (false, s)
    end in
  match body with
  | EmptyString => None
  | _ =>
      match digits_val 0 body with
      | None => None
      | Some n =>
          if neg then (if n <=? - GoInt.minInt then Some (- n) else None)
          else (if n <=? GoInt.maxInt then Some n else None)
      end
  end.

(** The verb [%d] of [fmt.Sprintf] on an [int]. *)
Definition fmt_d (n : Z) : string := NilZero.string_of_int (Z.to_int n).

Definition upperhex (n : N) : ascii :=
  match String.get (N.to_nat n) "0123456789ABCDEF" with
  | Some c => c
  | None => "0"%char
  end.

(** [shouldEscape(c, encodeQueryComponent)] of [net/url]: everything is
    escaped but the unreserved characters. *)
Definition shouldEscape (c : ascii) : bool :=
  let n := N_of_ascii c in
  if ((97 <=? n) && (n <=? 122) || (65 <=? n) && (n <=? 90)
      || (48 <=? n) && (n <=? 57))%N then false
  else if (Ascii.eqb c "-" || Ascii.eqb c "_" || Ascii.eqb c "."
           || Ascii.eqb c "~")%char then false
  else true.

(** [url.QueryEscape]: a space becomes [+], another escaped byte [%XX]. *)
Fixpoint QueryEscape (s : string) : string :=
  match s with
  | EmptyString => EmptyString
  | String c r =>
      if shouldEscape c then
        if Ascii.eqb c " " then String "+" (QueryEscape r)
        else String "%" (String (upperhex (N_of_ascii c / 16))
                           (String (upperhex (N_of_ascii c mod 16))
                              (QueryEscape r)))
      else String c (QueryEscape r)
  end.


(** The value of a hexadecimal digit in upper case. *)
Definition hexval (c : ascii) : N :=
  let n := N_of_ascii c in
  if ((48 <=? n) && (n <=? 57))%N then n - 48
  else if ((65 <=? n) && (n <=? 70))%N then n - 55
  else 0.

(** Reads an escaped term back: [+] is a space and [%XX] the byte [XX]. *)
Fixpoint unescape (s : string) : string :=
  match s with
  | EmptyString => EmptyString
  | String c r =>
      if Ascii.eqb c "+" then String " " (unescape r)
      else if Ascii.eqb c "%" then
        match r with
        | String a (String b r') =>
            String (ascii_of_N (hexval a * 16 + hexval b)) (unescape r')
        | _ => EmptyString
        end
      else String c (unescape r)
  end.

Definition newline : string := String "010" EmptyString.

(** The double quote. *)
Definition dquote : ascii := "034"%char.

(** A JSON text written with ['] for the double quote. *)
Fixpoint json (s : string) : string :=
  match s with
  | EmptyString => EmptyString
  | String c r => String (if Ascii.eqb c "'" then dquote else c) (json r)
  end.

(** Every byte of [s] passes [P]. *)
Fixpoint every_byte (P : ascii -> bool) (s : string) : bool :=
  match s with
  | EmptyString => true
  | String c r => P c && every_byte P r
  end.

(** The bytes [%d] writes. *)
Definition decimal_byte (c : ascii) : bool := is_digit c || Ascii.eqb c "-".

(** [s] occurs in [t]. *)
Definition contains (t s : string) : Prop :=
  exists pre post, t = pre +:+ s +:+ post.

(** ** The data model (lines 17-55) *)

(** A value of type [interface{}] as [encoding/json] builds it. *)
#[warnings="-register-all"]
Inductive any :=
| AnyNil
| AnyBool (b : bool)
| AnyNumber (f : Float64.t)
| AnyString (s : string)
| AnyArray (l : list any)
| AnyObject (m : list (string * any)).

Inductive Month :=
| January | February | March | April | May | June | July | August
| September | October | November | December.

(** [%v] on a [time.Month]. *)
Definition Month_String (m : Month) : string :=
  match m with
  | January => "January" | February => "February" | March => "March"
  | April => "April" | May => "May" | June => "June" | July => "July"
  | August => "August" | September => "September" | October => "October"
  | November => "November" | December => "December"
  end.

(** A [time.Time], by what [Date()] reads from it. *)
Module Time.
Record t := mk { year : Z; month : Month; day : Z }.
Definition Date (x : t) : Z * Month * Z := (year x, month x, day x).
End Time.

Module Source.
Record t := mk { ID : any; Name : string }.
End Source.

Module Article.
Record t := mk {
  Source : Source.t;
  Author : string;
  Title : string;
  Description : string;
  URL : string;
  URLToImage : string;
  PublishedAt : Time.t;
  Content : string
}.

(** lines 58-61 *)
Definition FormatPublishedDate (a : t) : string :=
  let '(year, month, day) := Time.Date (PublishedAt a) in
  Month_String month +:+ " " +:+ fmt_d day +:+ ", " +:+ fmt_d year.
End Article.

Module Results.
Record t := mk {
  Status : string;
  TotalResults : Z;
  Articles : list Article.t
}.

(** The zero value. *)
Definition zero : t := mk "" 0 [].
End Results.

Module NewsAPIError.
Record t := mk { Status : string; Code : string; Message : string }.
Definition zero : t := mk "" "" "".
End NewsAPIError.

Module Search.
Record t := mk {
  SearchKey : string;
  NextPage : Z;
  TotalPages : Z;
  Results : Results.t
}.

(** [Search{}] *)
Definition zero : t := mk "" 0 0 Results.zero.

Definition set_SearchKey (v : string) (s : t) : t :=
  mk v (NextPage s) (TotalPages s) (Results s).
Definition set_NextPage (v : Z) (s : t) : t :=
  mk (SearchKey s) v (TotalPages s) (Results s).
Definition set_TotalPages (v : Z) (s : t) : t :=
  mk (SearchKey s) (NextPage s) v (Results s).
Definition set_Results (v : Results.t) (s : t) : t :=
  mk (SearchKey s) (NextPage s) (TotalPages s) v.

(** lines 64-66 *)
Definition IsLastPage (s : t) : bool := TotalPages s <=? NextPage s.

(** lines 69-75 *)
Definition CurrentPage (s : t) : Z :=
  if NextPage s =? 1 then NextPage s
  else GoInt.sub (NextPage s) 1.

(** lines 78-80 *)
Definition PreviousPage (s : t) : Z := GoInt.sub (CurrentPage s) 1.
End Search.

(** ** The world of a handler *)

(** [http.ResponseWriter]: the status line once it is written, and the bytes
    of the body.  The first [WriteHeader] wins, and a [Write] before any
    [WriteHeader] writes status 200 first. *)
Module ResponseWriter.
Record t := mk { status : option Z; body : string }.

Definition fresh : t := mk None "".

Definition WriteHeader (code : Z) (w : t) : t :=
  match status w with
  | None => mk (Some code) (body w)
  | Some _ => w
  end.

Definition Write (b : string) (w : t) : t :=
  let w := WriteHeader 200 w in
  mk (status w) (body w +:+ b).

(** [http.Error]: the status, then the message and a newline
    ([fmt.Fprintln]). *)
Definition Error (msg : string) (code : Z) (w : t) : t :=
  Write (msg +:+ newline) (WriteHeader code w).
End ResponseWriter.

Definition StatusInternalServerError : Z := 500.

(** [*http.Response], by the two fields the handler reads. *)
Module Response.
Record t := mk { StatusCode : Z; Body : string }.
End Response.

(** [*http.Request], by [r.URL.String()]. *)
Module Request.
Record t := mk { URL : string }.
End Request.

(** [url.Values] and its [Get]: the first value of the key, or the empty
    string. *)
Definition Values_Get (v : gmap string (list string)) (key : string) : string :=
  match v !! key with
  | Some (x :: _) => x
  | _ => ""
  end.

(** What the handlers take from outside [main.go].  An [error] is carried as
    its text; [None] is [nil]. *)
Record Env := {
  (** [*apiKey], set once by [main] before the server listens *)
  apiKey : string;
  (** [url.Parse] and then [Query()] on its result *)
  url_Parse : string -> option (gmap string (list string));
  (** [http.Get]: [None] when it returns an error *)
  http_Get : string -> option Response.t;
  (** [json.NewDecoder(body).Decode(&NewsAPIError{})]: the value as the
      decoder leaves it, and the error *)
  Decode_NewsAPIError : string -> NewsAPIError.t * option string;
  (** [json.NewDecoder(body).Decode(&search.Results)] *)
  Decode_Results : string -> Results.t * option string;
  (** [tpl.Execute(w, data)]: the chunks it writes to [w], and the error *)
  tpl_Execute : option Search.t -> list string * option string
}.

(** The state a handler runs in. *)
Record World := {
  (** the response so far *)
  writer : ResponseWriter.t;
  (** the URLs handed to [http.Get], oldest first *)
  gets : list string;
  (** the lines handed to [log.Println], oldest first *)
  logs : list string;
  (** the values [*search] has had, oldest first *)
  searches : list Search.t
}.

Definition World_init : World :=
  {| writer := ResponseWriter.fresh; gets := []; logs := []; searches := [] |}.

(** A handler body: a state transformer that may [return] early ([None]). *)
Definition Handler (A : Type) : Type := World -> World * option A.

Definition ret {A} (a : A) : Handler A := fun σ => (σ, Some a).

Definition bind {A B} (c : Handler A) (k : A -> Handler B) : Handler B :=
  fun σ =>
    match c σ with
    | (σ', Some a) => k a σ'
    | (σ', None) => (σ', None)
    end.

(** [return] *)
Definition return_ {A} : Handler A := fun σ => (σ, None).

Declare Scope handler_scope.
Delimit Scope handler_scope with handler.
Notation "x <- c ;; k" := (bind c (fun x => k))
  (at level 100, c at next level, k at level 200, right associativity)
  : handler_scope.
Notation "c ;; k" := (bind c (fun _ => k))
  (at level 100, k at level 200, right associativity) : handler_scope.
Local Open Scope handler_scope.

Definition on_writer (f : ResponseWriter.t -> ResponseWriter.t) : Handler unit :=
  fun σ => ({| writer := f (writer σ); gets := gets σ; logs := logs σ;
               searches := searches σ |}, Some tt).

Definition WriteHeader (code : Z) : Handler unit :=
  on_writer (ResponseWriter.WriteHeader code).
Definition Write (b : string) : Handler unit :=
  on_writer (ResponseWriter.Write b).
Definition http_Error (msg : string) (code : Z) : Handler unit :=
  on_writer (ResponseWriter.Error msg code).

Definition log_Println (line : string) : Handler unit :=
  fun σ => ({| writer := writer σ; gets := gets σ; logs := logs σ ++ [line];
               searches := searches σ |}, Some tt).

(** [*search] *)
Definition deref : Handler Search.t :=
  fun σ => (σ, Some (List.last (searches σ) Search.zero)).

(** An assignment to [*search] or to one of its fields. *)
Definition assign (f : Search.t -> Search.t) : Handler unit :=
  fun σ => ({| writer := writer σ; gets := gets σ; logs := logs σ;
               searches := searches σ ++ [f (List.last (searches σ) Search.zero)] |},
            Some tt).

(** [search := &Search{}] *)
Definition new_Search : Handler unit := assign (fun _ => Search.zero).

Section Handlers.

Variable E : Env.

Definition Get (url : string) : Handler (option Response.t) :=
  fun σ => ({| writer := writer σ; gets := gets σ ++ [url]; logs := logs σ;
               searches := searches σ |}, Some (http_Get E url)).

Definition Execute (data : option Search.t) : Handler (option string) :=
  let '(chunks, err) := tpl_Execute E data in
  on_writer (fun w => fold_left (fun w b => ResponseWriter.Write b w) chunks w) ;;
  ret err.

(** lines 86-88 *)
Definition indexHandler (r : Request.t) : Handler unit :=
  _ <- Execute None ;; ret tt.

Definition pageSize : Z := 20.

(** line 121 *)
Definition endpoint (search : Search.t) : string :=
  "https://newsapi.org/v2/everything?q="
    +:+ QueryEscape (Search.SearchKey search)
    +:+ "&pageSize=" +:+ fmt_d pageSize
    +:+ "&page=" +:+ fmt_d (Search.NextPage search)
    +:+ "&apiKey=" +:+ apiKey E
    +:+ "&sortBy=publishedAt&language=en".

(** line 150 *)
Definition totalPages (search : Search.t) : Z :=
  Float64.to_int
    (Float64.Ceil
       (Float64.of_int
          (GoInt.quo (Results.TotalResults (Search.Results search)) pageSize))).

(** lines 91-160 *)
Definition searchHandler (r : Request.t) : Handler unit :=
  params <- match url_Parse E (Request.URL r) with
            | None =>
                WriteHeader StatusInternalServerError ;;
                Write "Internal server error" ;;
                return_
            | Some params => ret params
            end ;;
  let searchKey := Values_Get params "q" in
  let page := Values_Get params "page" in
  let page := if String.eqb page "" then "1" else page in
  new_Search ;;
  assign (Search.set_SearchKey searchKey) ;;
  next <- match Atoi page with
          | None =>
              http_Error "Unexpected server error" StatusInternalServerError ;;
              return_
          | Some next => ret next
          end ;;
  assign (Search.set_NextPage next) ;;
  search <- deref ;;
  got <- Get (endpoint search) ;;
  resp <- match got with
          | None =>
              WriteHeader StatusInternalServerError ;;
              Write "Internal server error" ;;
              return_
          | Some resp => ret resp
          end ;;
  (if Response.StatusCode resp =? 200 then ret tt
   else
     let '(newError, err) := Decode_NewsAPIError E (Response.Body resp) in
     match err with
     | Some _ =>
         http_Error "Unexpected server error" StatusInternalServerError ;;
         return_
     | None =>
         http_Error (NewsAPIError.Message newError) StatusInternalServerError ;;
         return_
     end) ;;
  (let '(results, err) := Decode_Results E (Response.Body resp) in
   assign (Search.set_Results results) ;;
   match err with
   | Some _ => WriteHeader StatusInternalServerError ;; return_
   | None => ret tt
   end) ;;
  assign (fun s => Search.set_TotalPages (totalPages s) s) ;;
  search <- deref ;;
  (if negb (Search.IsLastPage search)
   then assign (fun s => Search.set_NextPage (GoInt.add (Search.NextPage s) 1) s)
   else ret tt) ;;
  search <- deref ;;
  err <- Execute (Some search) ;;
  match err with
  | Some e => log_Println e
  | None => ret tt
  end.

(** The world a handler leaves behind, started on a fresh response. *)
Definition serve (h : Request.t -> Handler unit) (r : Request.t) : World :=
  fst (h r World_init).

End Handlers.

(** ** A decoder and a world for the examples

    [RefDecoder] reads the JSON texts that are one object whose members are
    strings without escapes, decimal integers or the empty array, which is
    the shape of the upstream's envelopes in the examples below; every other
    text is an error.  The theorems do not depend on it: they hold for every
    [Env]. *)

Module RefDecoder.

Inductive token :=
| TLBrace | TRBrace | TColon | TComma | TEmptyArray
| TString (s : string)
| TNumber (lit : string).

Inductive mode :=
| Idle
| InString (seen : string)
| InNumber (seen : string)
| InArray.

Definition is_space (c : ascii) : bool :=
  (Ascii.eqb c " " || Ascii.eqb c "009" || Ascii.eqb c "010"
   || Ascii.eqb c "013")%char.

Definition punct (c : ascii) : option token :=
  if Ascii.eqb c "{" then Some TLBrace
  else if Ascii.eqb c "}" then Some TRBrace
  else if Ascii.eqb c ":" then Some TColon
  else if Ascii.eqb c "," then Some TComma
  else None.

Definition snoc (s : string) (c : ascii) : string :=
  s +:+ String c EmptyString.

Fixpoint lex (m : mode) (s : string) : option (list token) :=
  match m, s with
  | Idle, EmptyString => Some []
  | InNumber seen, EmptyString => Some [TNumber seen]
  | _, EmptyString => None
  | Idle, String c r =>
      if is_space c then lex Idle r
      else if Ascii.eqb c dquote then lex (InString "") r
      else if Ascii.eqb c "[" then lex InArray r
      else if is_digit c || Ascii.eqb c "-" then lex (InNumber (String c "")) r
      else match punct c with
           | Some t => cons t <$> lex Idle r
           | None => None
           end
  | InString seen, String c r =>
      if Ascii.eqb c dquote then cons (TString seen) <$> lex Idle r
      else if Ascii.eqb c "\" then None
      else lex (InString (snoc seen c)) r
  | InNumber seen, String c r =>
      if is_digit c then lex (InNumber (snoc seen c)) r
      else if is_space c then cons (TNumber seen) <$> lex Idle r
      else match punct c with
           | Some t => (fun ts => TNumber seen :: t :: ts) <$> lex Idle r
           | None => None
           end
  | InArray, String c r =>
      if is_space c then lex InArray r
      else if Ascii.eqb c "]" then cons TEmptyArray <$> lex Idle r
      else None
  end.

Inductive value :=
| VString (s : string)
| VNumber (lit : string)
| VEmptyArray.

(** The members after the opening brace, up to the closing one. *)
Fixpoint members (first : bool) (ts : list token) : option (list (string * value)) :=
  match ts with
  | TRBrace :: _ => if first then Some [] else None
  | TString k :: TColon :: t :: rest =>
      match t with
      | TString s => Some (VString s)
      | TNumber n => Some (VNumber n)
      | TEmptyArray => Some VEmptyArray
      | _ => None
      end ≫= fun v =>
      match rest with
      | TRBrace :: _ => Some [(k, v)]
      | TComma :: rest' =>
          match rest' with
          | TRBrace :: _ => None
          | _ => cons (k, v) <$> members false rest'
          end
      | _ => None
      end
  | _ => None
  end.

Definition object (text : string) : option (list (string * value)) :=
  match lex Idle text with
  | Some (TLBrace :: ts) => members true ts
  | _ => None
  end.

Definition lower (c : ascii) : ascii :=
  let n := N_of_ascii c in
  if ((65 <=? n) && (n <=? 90))%N then ascii_of_N (n + 32) else c.

Fixpoint fold_case (s : string) : string :=
  match s with
  | EmptyString => EmptyString
  | String c r => String (lower c) (fold_case r)
  end.

(** A struct field takes the member whose key is its name, whatever the
    case of the letters. *)
Definition names (key field : string) : bool :=
  String.eqb (fold_case key) (fold_case field).

Definition mismatch : option string :=
  Some "json: cannot unmarshal value into Go struct field".

Definition syntax : option string := Some "json: invalid character".

Definition first_error (a b : option string) : option string :=
  match a with Some _ => a | None => b end.

Definition NewsAPIError_member (acc : NewsAPIError.t * option string)
    (kv : string * value) : NewsAPIError.t * option string :=
  let '(e, err) := acc in
  let '(k, v) := kv in
  let set (f : string -> NewsAPIError.t) :=
    match v with
    | VString s => (f s, err)
    | _ => (e, first_error err mismatch)
    end in
  if names k "status" then
    set (fun s => NewsAPIError.mk s (NewsAPIError.Code e) (NewsAPIError.Message e))
  else if names k "code" then
    set (fun s => NewsAPIError.mk (NewsAPIError.Status e) s (NewsAPIError.Message e))
  else if names k "message" then
    set (fun s => NewsAPIError.mk (NewsAPIError.Status e) (NewsAPIError.Code e) s)
  else acc.

Definition Decode_NewsAPIError (text : string) : NewsAPIError.t * option string :=
  match object text with
  | Some ms => fold_left NewsAPIError_member ms (NewsAPIError.zero, None)
  | None => (NewsAPIError.zero, syntax)
  end.

Definition Results_member (acc : Results.t * option string)
    (kv : string * value) : Results.t * option string :=
  let '(x, err) := acc in
  let '(k, v) := kv in
  if names k "status" then
    match v with
    | VString s => (Results.mk s (Results.TotalResults x) (Results.Articles x), err)
    | _ => (x, first_error err mismatch)
    end
  else if names k "totalResults" then
    match v with
    | VNumber lit =>
        match Atoi lit with
        | Some n => (Results.mk (Results.Status x) n (Results.Articles x), err)
        | None => (x, first_error err mismatch)
        end
    | _ => (x, first_error err mismatch)
    end
  else if names k "articles" then
    match v with
    | VEmptyArray => (Results.mk (Results.Status x) (Results.TotalResults x) [], err)
    | _ => (x, first_error err mismatch)
    end
  else acc.

Definition Decode_Results (text : string) : Results.t * option string :=
  match object text with
  | Some ms => fold_left Results_member ms (Results.zero, None)
  | None => (Results.zero, syntax)
  end.

End RefDecoder.

(** A world for the examples: the request's query is [params], the upstream
    answers every [GET] with [answer], and the template writes one chunk. *)
Definition example_Env (params : gmap string (list string))
    (answer : option Response.t) : Env :=
  {| apiKey := "KEY";
     url_Parse := fun _ => Some params;
     http_Get := fun _ => answer;
     Decode_NewsAPIError := RefDecoder.Decode_NewsAPIError;
     Decode_Results := RefDecoder.Decode_Results;
     tpl_Execute := fun _ => (["<html>"], None) |}.

Definition query (q page : string) : gmap string (list string) :=
  {[ "q" := [q]; "page" := [page] ]}.

Definition apiKeyInvalid : string :=
  json "{'status':'error','code':'apiKeyInvalid','message':'Your API key is invalid'}".

(** The upstream's answer 200 in the examples, and the request sent. *)
Definition ok_body (totalResults : string) : string :=
  json ("{'status':'ok','totalResults':" +:+ totalResults +:+ ",'articles':[]}").

Definition ok_Env (q page totalResults : string) : Env :=
  example_Env (query q page) (Some (Response.mk 200 (ok_body totalResults))).

Definition ok_fetched (q : string) (page totalResults : Z) : Search.t :=
  Search.mk q page 0 (Results.mk "ok" totalResults []).

Definition search_request (q page : string) : Request.t :=
  Request.mk ("/search?q=" +:+ q +:+ "&page=" +:+ page).

(** ** Vocabulary of the statements *)

(** The text line 111 parses: the [page] parameter, or ["1"] in its place
    when it is absent or empty (lines 103-106). *)
Definition page_param (params : gmap string (list string)) : string :=
  let page := Values_Get params "page" in
  if String.eqb page "" then "1" else page.

(** [*search] when the handler is over. *)
Definition final_search (σ : World) : Search.t :=
  List.last (searches σ) Search.zero.

(** [*search] at line 121, for the query [params] and the parsed page. *)
Definition asked (params : gmap string (list string)) (next : Z) : Search.t :=
  Search.mk (Values_Get params "q") next 0 Results.zero.

(** The request gets past line 115: its URL parses and so does its page. *)
Definition Asks (E : Env) (r : Request.t)
    (params : gmap string (list string)) (next : Z) : Prop :=
  url_Parse E (Request.URL r) = Some params /\
  Atoi (page_param params) = Some next.

(** The request gets past line 128: the upstream answers it with [resp]. *)
Definition Answers (E : Env) (r : Request.t) (resp : Response.t) : Prop :=
  exists params next,
    Asks E r params next /\
    http_Get E (endpoint E (asked params next)) = Some resp.

(** The request gets past line 148 (a successful fetch), where [*search] is
    [s]: the key, the page asked for and the decoded results. *)
Definition Fetches (E : Env) (r : Request.t) (s : Search.t) : Prop :=
  exists params next resp results,
    Asks E r params next /\
    http_Get E (endpoint E (asked params next)) = Some resp /\
    Response.StatusCode resp = 200 /\
    Decode_Results E (Response.Body resp) = (results, None) /\
    s = Search.set_Results results (asked params next).

(** [*search] after line 150. *)
Definition counted (s : Search.t) : Search.t :=
  Search.set_TotalPages (totalPages s) s.

(** [*search] after lines 152-154. *)
Definition advanced (s : Search.t) : Search.t :=
  if negb (Search.IsLastPage s)
  then Search.set_NextPage (GoInt.add (Search.NextPage s) 1) s
  else s.

(** The field [TotalResults] is an [int]: whatever the decoder leaves in it
    is in [int]'s range. *)
Definition Env_wf (E : Env) : Prop :=
  forall body, GoInt.is_int (Results.TotalResults (fst (Decode_Results E body))).

(** What [Execute] makes of the response and of the log (lines 156-159). *)
Definition rendered (E : Env) (search : Search.t) : ResponseWriter.t :=
  fold_left (fun w b => ResponseWriter.Write b w)
    (fst (tpl_Execute E (Some search))) ResponseWriter.fresh.

Definition complaints (E : Env) (search : Search.t) : list string :=
  match snd (tpl_Execute E (Some search)) with
  | Some e => [e]
  | None => []
  end.

(** ** Tactics *)

(** Runs a handler up to the next value it takes from outside. *)
Ltac run :=
  cbv beta iota zeta delta
    [serve bind ret return_ WriteHeader Write http_Error on_writer assign
     new_Search deref Get Execute log_Println fst snd writer gets logs
     searches World_init].

Ltac run_with H := rewrite H; run.

(** Shows [Fetches] in a closed world. *)
Ltac fetches :=
  eexists _, _, _, _; repeat split; vm_compute; reflexivity.

(** ** Arithmetic of [int] and of the conversions of line 150 *)

Lemma wrap_is_int (z : Z) : GoInt.is_int z -> GoInt.wrap z = z.
Proof.
  unfold GoInt.is_int, GoInt.wrap, GoInt.minInt, GoInt.maxInt, GoInt.intSize.
  intros H. rewrite Z.mod_small; lia.
Qed.

Lemma sub_exact (a b : Z) : GoInt.is_int (a - b) -> GoInt.sub a b = a - b.
Proof. apply wrap_is_int. Qed.

Lemma add_exact (a b : Z) : GoInt.is_int (a + b) -> GoInt.add a b = a + b.
Proof. apply wrap_is_int. Qed.

Lemma digits_val_lower (s : string) : forall acc n,
  digits_val acc s = Some n -> 0 <= acc -> 0 <= n.
Proof.
  induction s as [|c s IH]; simpl; intros acc n H Hacc.
  - congruence.
  - destruct (is_digit c) eqn:Hc; [|discriminate].
    apply (IH _ _ H). unfold is_digit, digit_val in *.
    apply andb_true_iff in Hc as [Hlo _]. apply N.leb_le in Hlo. lia.
Qed.

Lemma Atoi_is_int (s : string) (n : Z) : Atoi s = Some n -> GoInt.is_int n.
Proof.
  unfold Atoi.
  destruct (match s with
            | String "-" r => (true, r)
            | String "+" r => (false, r)
            | _ => (false, s)
            end) as [neg body].
  destruct body as [|c body]; [discriminate|].
  destruct (digits_val 0 (String c body)) as [v|] eqn:Hv; [|discriminate].
  apply digits_val_lower in Hv; [|lia].
  destruct neg.
  - destruct (Z.leb_spec v (- GoInt.minInt)) as [Hle|]; [|discriminate].
    intros [= <-]. revert Hle.
    unfold GoInt.is_int, GoInt.minInt, GoInt.maxInt, GoInt.intSize. lia.
  - destruct (Z.leb_spec v GoInt.maxInt) as [Hle|]; [|discriminate].
    intros [= <-]. revert Hle.
    unfold GoInt.is_int, GoInt.minInt, GoInt.maxInt, GoInt.intSize. lia.
Qed.

Lemma roundtrip_exact (n : Z) : Z.abs n <= 2 ^ 53 -> roundtrip n = n.
Proof.
  intros Hn. unfold roundtrip, Float64.of_int, Float64.prec.
  destruct (Z.leb_spec (Z.log2 (Z.abs n) - (53 - 1)) 0) as [He|He].
  - unfold Float64.Ceil, Float64.to_int. simpl. lia.
  - assert (Ha : 0 < Z.abs n).
    { destruct (Z.eq_dec (Z.abs n) 0) as [H0|]; [|lia].
      rewrite H0 in He. simpl in He. lia. }
    pose proof (Z.log2_spec _ Ha) as [Hlo _].
    assert (Hp : 2 ^ 53 <= 2 ^ Z.log2 (Z.abs n))
      by (apply Z.pow_le_mono_r; lia).
    assert (Heq : Z.abs n = 2 ^ 53) by lia.
    destruct (Z.abs_spec n) as [[_ Hs]|[_ Hs]]; rewrite Hs in Heq.
    + subst n. reflexivity.
    + assert (n = - 2 ^ 53) as -> by lia. reflexivity.
Qed.

Lemma roundtrip_bound (n : Z) : Z.abs (roundtrip n) <= 2 * Z.abs n.
Proof.
  unfold roundtrip, Float64.of_int, Float64.prec.
  destruct (Z.leb_spec (Z.log2 (Z.abs n) - (53 - 1)) 0) as [He|He].
  - unfold Float64.Ceil, Float64.to_int. simpl. lia.
  - assert (Ha : 0 < Z.abs n).
    { destruct (Z.eq_dec (Z.abs n) 0) as [H0|]; [|lia].
      rewrite H0 in He. simpl in He. lia. }
    pose proof (Z.log2_spec _ Ha) as [Hlo _].
    set (e := Z.log2 (Z.abs n) - (53 - 1)) in *.
    assert (Hu : 0 < 2 ^ e) by (apply Z.pow_pos_nonneg; lia).
    assert (Hule : 2 ^ e <= Z.abs n).
    { transitivity (2 ^ Z.log2 (Z.abs n)); [|exact Hlo].
      apply Z.pow_le_mono_r; lia. }
    pose proof (Z.div_mod (Z.abs n) (2 ^ e) ltac:(lia)) as Hdm.
    pose proof (Z.mod_pos_bound (Z.abs n) (2 ^ e) Hu) as Hr.
    assert (Hq : 0 <= Z.abs n / 2 ^ e) by (apply Z.div_pos; lia).
    cbv zeta.
    set (q' := if Z.abs n mod 2 ^ e <? 2 ^ e / 2 then Z.abs n / 2 ^ e
               else if 2 ^ e / 2 <? Z.abs n mod 2 ^ e then Z.abs n / 2 ^ e + 1
               else if Z.even (Z.abs n / 2 ^ e) then Z.abs n / 2 ^ e
                    else Z.abs n / 2 ^ e + 1).
    assert (Hq' : 0 <= q' <= Z.abs n / 2 ^ e + 1).
    { subst q'. repeat match goal with |- context [if ?b then _ else _] =>
        destruct b end; lia. }
    assert (Hpos : (0 <=? e) = true) by (apply Z.leb_le; lia).
    unfold Float64.Ceil, Float64.to_int. cbn [Float64.expo Float64.mant].
    rewrite Hpos. cbn [Float64.expo Float64.mant]. rewrite Hpos.
    rewrite !Z.abs_mul.
    rewrite (Z.abs_eq q') by lia. rewrite (Z.abs_eq (2 ^ e)) by lia.
    assert (Hs : Z.abs (Z.sgn n) = 1) by lia.
    nia.
Qed.

Lemma totalPages_is_int (s : Search.t) :
  GoInt.is_int (Results.TotalResults (Search.Results s)) ->
  GoInt.is_int (totalPages s).
Proof.
  unfold totalPages, GoInt.quo, pageSize. fold (roundtrip (Results.TotalResults (Search.Results s) ÷ 20)).
  set (n := Results.TotalResults (Search.Results s)). intros Hn.
  pose proof (roundtrip_bound (n ÷ 20)) as Hb.
  pose proof (Z.quot_rem n 20 ltac:(lia)) as Hqr.
  assert (Hr : Z.abs (Z.rem n 20) < 20).
  { pose proof (Z.rem_bound_abs n 20 ltac:(lia)). lia. }
  revert Hn. unfold GoInt.is_int, GoInt.minInt, GoInt.maxInt, GoInt.intSize.
  lia.
Qed.

(** ** The runs of [searchHandler], one lemma per way out *)

Lemma asked_eq (params : gmap string (list string)) (next : Z) :
  Search.set_NextPage next
    (Search.set_SearchKey (Values_Get params "q") Search.zero)
  = asked params next.
Proof. reflexivity. Qed.

Section Runs.

Variable E : Env.
Variable r : Request.t.

(** line 94: the URL does not parse *)
Lemma run_url_error :
  url_Parse E (Request.URL r) = None ->
  serve (searchHandler E) r =
    {| writer := ResponseWriter.mk (Some 500) "Internal server error";
       gets := []; logs := []; searches := [] |}.
Proof. intros Hu. unfold searchHandler. run. run_with Hu. reflexivity. Qed.

Variable params : gmap string (list string).
Hypothesis Hparams : url_Parse E (Request.URL r) = Some params.

Local Abbreviation s0 := Search.zero.
Local Abbreviation s1 := (Search.set_SearchKey (Values_Get params "q") Search.zero).

(** line 112: the page does not parse *)
Lemma run_page_error :
  Atoi (page_param params) = None ->
  serve (searchHandler E) r =
    {| writer := ResponseWriter.mk (Some 500) ("Unexpected server error" +:+ newline);
       gets := []; logs := []; searches := [s0; s1] |}.
Proof.
  intros Ha. unfold searchHandler. run. run_with Hparams.
  unfold page_param in Ha. run_with Ha. reflexivity.
Qed.

Variable next : Z.
Hypothesis Hnext : Atoi (page_param params) = Some next.

Local Abbreviation s2 := (asked params next).

(** line 124: [http.Get] fails *)
Lemma run_get_error :
  http_Get E (endpoint E s2) = None ->
  serve (searchHandler E) r =
    {| writer := ResponseWriter.mk (Some 500) "Internal server error";
       gets := [endpoint E s2]; logs := []; searches := [s0; s1; s2] |}.
Proof.
  intros Hg. unfold searchHandler. run. run_with Hparams.
  unfold page_param in Hnext. run_with Hnext.
  cbn [List.last app]. rewrite !asked_eq.
  run_with Hg. reflexivity.
Qed.

Variable resp : Response.t.
Hypothesis Hresp : http_Get E (endpoint E s2) = Some resp.

(** lines 132-142: a status other than 200 *)
Lemma run_upstream_error :
  Response.StatusCode resp <> 200 ->
  serve (searchHandler E) r =
    {| writer :=
         ResponseWriter.mk (Some 500)
           (match Decode_NewsAPIError E (Response.Body resp) with
            | (_, Some _) => "Unexpected server error"
            | (newError, None) => NewsAPIError.Message newError
            end +:+ newline);
       gets := [endpoint E s2]; logs := []; searches := [s0; s1; s2] |}.
Proof.
  intros Hs. unfold searchHandler. run. run_with Hparams.
  unfold page_param in Hnext. run_with Hnext.
  cbn [List.last app]. rewrite !asked_eq.
  run_with Hresp.
  apply Z.eqb_neq in Hs. run_with Hs.
  destruct (Decode_NewsAPIError E (Response.Body resp)) as [newError [err|]];
    reflexivity.
Qed.

(** lines 144-148: status 200 and a body that does not decode *)
Lemma run_decode_error (err : string) :
  Response.StatusCode resp = 200 ->
  snd (Decode_Results E (Response.Body resp)) = Some err ->
  serve (searchHandler E) r =
    {| writer := ResponseWriter.mk (Some 500) "";
       gets := [endpoint E s2]; logs := [];
       searches :=
         [s0; s1; s2;
          Search.set_Results (fst (Decode_Results E (Response.Body resp))) s2] |}.
Proof.
  intros Hs Hd. unfold searchHandler. run. run_with Hparams.
  unfold page_param in Hnext. run_with Hnext.
  cbn [List.last app]. rewrite !asked_eq.
  run_with Hresp.
  apply Z.eqb_eq in Hs. run_with Hs.
  destruct (Decode_Results E (Response.Body resp)) as [results e].
  simpl in Hd. subst e. reflexivity.
Qed.

Variable results : Results.t.
Hypothesis Hresults : Decode_Results E (Response.Body resp) = (results, None).
Hypothesis Hstatus : Response.StatusCode resp = 200.

Local Abbreviation s3 := (Search.set_Results results (asked params next)).
Local Abbreviation s4 := (counted (Search.set_Results results (asked params next))).

(** lines 150-159: the page fetched is the last one *)
Lemma run_last_page :
  Search.IsLastPage s4 = true ->
  serve (searchHandler E) r =
    {| writer := rendered E s4;
       gets := [endpoint E s2]; logs := complaints E s4;
       searches := [s0; s1; s2; s3; s4] |}.
Proof.
  intros Hl. unfold searchHandler. run. run_with Hparams.
  unfold page_param in Hnext. run_with Hnext.
  cbn [List.last app]. rewrite !asked_eq.
  run_with Hresp.
  apply Z.eqb_eq in Hstatus. run_with Hstatus.
  run_with Hresults.
  cbn [List.last app]. unfold counted in *.
  run_with Hl. cbn [negb]. run. cbn [List.last app].
  unfold rendered, complaints.
  destruct (tpl_Execute E _) as [chunks [e|]]; reflexivity.
Qed.

(** lines 150-159: more pages remain *)
Lemma run_more_pages :
  Search.IsLastPage s4 = false ->
  let s5 := Search.set_NextPage (GoInt.add (Search.NextPage s4) 1) s4 in
  serve (searchHandler E) r =
    {| writer := rendered E s5;
       gets := [endpoint E s2]; logs := complaints E s5;
       searches := [s0; s1; s2; s3; s4; s5] |}.
Proof.
  intros Hl s5. unfold searchHandler. run. run_with Hparams.
  unfold page_param in Hnext. run_with Hnext.
  cbn [List.last app]. rewrite !asked_eq.
  run_with Hresp.
  apply Z.eqb_eq in Hstatus. run_with Hstatus.
  run_with Hresults.
  cbn [List.last app]. subst s5. unfold counted in *.
  run_with Hl. cbn [negb]. run. cbn [List.last app].
  unfold rendered, complaints.
  destruct (tpl_Execute E _) as [chunks [e|]]; reflexivity.
Qed.

End Runs.

(** ** The reference decoder respects the type of [TotalResults] *)

Lemma Results_member_is_int (acc : Results.t * option string)
    (kv : string * RefDecoder.value) :
  GoInt.is_int (Results.TotalResults (fst acc)) ->
  GoInt.is_int (Results.TotalResults (fst (RefDecoder.Results_member acc kv))).
Proof.
  destruct acc as [x err], kv as [k v]. unfold RefDecoder.Results_member.
  intros Hx.
  repeat match goal with
         | |- context [if ?b then _ else _] => destruct b
         | |- context [match ?v with
                       | RefDecoder.VString _ => _
                       | RefDecoder.VNumber _ => _
                       | RefDecoder.VEmptyArray => _
                       end] => destruct v
         | |- context [match Atoi ?l with Some _ => _ | None => _ end] =>
             destruct (Atoi l) eqn:?
         end; simpl in *; eauto using Atoi_is_int.
Qed.

Lemma fold_Results_member_is_int (ms : list (string * RefDecoder.value)) :
  forall acc,
    GoInt.is_int (Results.TotalResults (fst acc)) ->
    GoInt.is_int
      (Results.TotalResults (fst (fold_left RefDecoder.Results_member ms acc))).
Proof.
  induction ms as [|kv ms IH]; intros acc Hacc; simpl; [exact Hacc|].
  apply IH, Results_member_is_int, Hacc.
Qed.

Lemma zero_is_int : GoInt.is_int 0.
Proof. unfold GoInt.is_int, GoInt.minInt, GoInt.maxInt, GoInt.intSize. lia. Qed.

Lemma example_Env_wf (params : gmap string (list string))
    (answer : option Response.t) : Env_wf (example_Env params answer).
Proof.
  intros body. simpl. unfold RefDecoder.Decode_Results.
  destruct (RefDecoder.object body) as [ms|].
  - apply fold_Results_member_is_int, zero_is_int.
  - apply zero_is_int.
Qed.

(** ** The pagination model *)

(** C3.  [IsLastPage] is true exactly when [NextPage >= TotalPages], and
    false exactly when [NextPage < TotalPages]. *)
Theorem IsLastPage_iff (s : Search.t) :
  (Search.IsLastPage s = true <-> Search.NextPage s >= Search.TotalPages s) /\
  (Search.IsLastPage s = false <-> Search.NextPage s < Search.TotalPages s).
Proof.
  unfold Search.IsLastPage. split.
  - rewrite Z.leb_le. lia.
  - rewrite Z.leb_gt. lia.
Qed.

(** C4.  [CurrentPage] is 1 when [NextPage] is 1 and [NextPage - 1]
    otherwise, and [PreviousPage] is [CurrentPage - 1] without a lower bound:
    it is 0 for the first pages and negative below them.  The subtraction is
    the one of [int]; it is the difference of the integers for every operand
    but the least [int]. *)
Theorem CurrentPage_PreviousPage (s : Search.t) :
  (Search.NextPage s = 1 -> Search.CurrentPage s = 1) /\
  (Search.NextPage s <> 1 ->
   Search.CurrentPage s = GoInt.sub (Search.NextPage s) 1) /\
  Search.PreviousPage s = GoInt.sub (Search.CurrentPage s) 1 /\
  (GoInt.minInt < Search.NextPage s <= GoInt.maxInt ->
   Search.NextPage s <> 1 ->
   Search.CurrentPage s = Search.NextPage s - 1) /\
  (GoInt.minInt < Search.CurrentPage s <= GoInt.maxInt ->
   Search.PreviousPage s = Search.CurrentPage s - 1) /\
  (Search.NextPage s = 1 \/ Search.NextPage s = 2 ->
   Search.PreviousPage s = 0) /\
  (GoInt.minInt + 1 < Search.NextPage s <= 0 -> Search.PreviousPage s < 0).
Proof.
  assert (Hcur : Search.NextPage s <> 1 ->
                 Search.CurrentPage s = GoInt.sub (Search.NextPage s) 1).
  { intros Hne. unfold Search.CurrentPage.
    apply Z.eqb_neq in Hne. now rewrite Hne. }
  assert (Hone : Search.NextPage s = 1 -> Search.CurrentPage s = 1).
  { intros H1. unfold Search.CurrentPage. now rewrite H1. }
  assert (Hexact : GoInt.minInt < Search.NextPage s <= GoInt.maxInt ->
                   Search.NextPage s <> 1 ->
                   Search.CurrentPage s = Search.NextPage s - 1).
  { intros Hr Hne. rewrite (Hcur Hne). apply sub_exact.
    unfold GoInt.is_int. lia. }
  assert (Hprev : GoInt.minInt < Search.CurrentPage s <= GoInt.maxInt ->
                  Search.PreviousPage s = Search.CurrentPage s - 1).
  { intros Hr. unfold Search.PreviousPage. apply sub_exact.
    unfold GoInt.is_int. lia. }
  repeat split; auto.
  - intros [H1|H2].
    + unfold Search.PreviousPage. rewrite (Hone H1). reflexivity.
    + unfold Search.PreviousPage, Search.CurrentPage. rewrite H2. reflexivity.
  - intros Hr.
    assert (Hne : Search.NextPage s <> 1) by lia.
    assert (Hc : Search.CurrentPage s = Search.NextPage s - 1).
    { apply Hexact; [|exact Hne].
      unfold GoInt.minInt, GoInt.maxInt, GoInt.intSize in *. lia. }
    rewrite Hprev; unfold GoInt.minInt, GoInt.maxInt, GoInt.intSize in *; lia.
Qed.

(** At page 0 the previous page is page -2. *)
Lemma PreviousPage_negative :
  GoInt.minInt + 1 < 0 <= 0 /\
  Search.PreviousPage (Search.mk "bitcoin" 0 0 Results.zero) < 0.
Proof.
  split; [unfold GoInt.minInt, GoInt.intSize; lia|].
  apply (CurrentPage_PreviousPage (Search.mk "bitcoin" 0 0 Results.zero)).
  cbn [Search.NextPage]. unfold GoInt.minInt, GoInt.intSize. lia.
Defined.

(** ** The search handler *)

(** A successful fetch ends with the counted and advanced [*search]. *)
Lemma final_search_fetched (E : Env) (r : Request.t) (s : Search.t) :
  Fetches E r s ->
  final_search (serve (searchHandler E) r) = advanced (counted s).
Proof.
  intros (params & next & resp & results & [Hu Ha] & Hg & Hs & Hd & ->).
  unfold advanced.
  destruct (Search.IsLastPage (counted (Search.set_Results results (asked params next))))
    eqn:Hl.
  - rewrite (run_last_page E r params Hu next Ha resp Hg results Hd Hs Hl).
    reflexivity.
  - rewrite (run_more_pages E r params Hu next Ha resp Hg results Hd Hs Hl).
    reflexivity.
Qed.

Lemma Fetches_page_is_int (E : Env) (r : Request.t) (s : Search.t) :
  Fetches E r s -> GoInt.is_int (Search.NextPage s).
Proof.
  intros (params & next & resp & results & [Hu Ha] & Hg & Hs & Hd & ->).
  simpl. eapply Atoi_is_int, Ha.
Qed.

Lemma Fetches_total_is_int (E : Env) (r : Request.t) (s : Search.t) :
  Env_wf E -> Fetches E r s ->
  GoInt.is_int (Results.TotalResults (Search.Results s)).
Proof.
  intros Hwf (params & next & resp & results & [Hu Ha] & Hg & Hs & Hd & ->).
  simpl. specialize (Hwf (Response.Body resp)). now rewrite Hd in Hwf.
Qed.

(** The increment of line 153 never overflows: it is taken below
    [TotalPages], which is an [int]. *)
Lemma advanced_exact (s : Search.t) :
  GoInt.is_int (Search.NextPage s) ->
  GoInt.is_int (Search.TotalPages s) ->
  Search.NextPage (advanced s) =
    if Search.IsLastPage s then Search.NextPage s else Search.NextPage s + 1.
Proof.
  intros Hn Ht. unfold advanced.
  destruct (Search.IsLastPage s) eqn:Hl; simpl; [reflexivity|].
  apply add_exact. unfold Search.IsLastPage in Hl. apply Z.leb_gt in Hl.
  unfold GoInt.is_int in *. lia.
Qed.

(** C1, as the code has it.  After a successful fetch of results whose
    count is not negative and whose quotient by the page size 20 is at most
    2^53 (every count below 180143985094819860), [TotalPages] is that
    quotient, truncated: a last partial page is not counted. *)
Theorem totalPages_truncates (E : Env) (r : Request.t) (s : Search.t) :
  Fetches E r s ->
  0 <= Results.TotalResults (Search.Results s) ->
  Results.TotalResults (Search.Results s) ÷ 20 <= 2 ^ 53 ->
  Search.TotalPages (final_search (serve (searchHandler E) r)) =
    Results.TotalResults (Search.Results s) ÷ 20.
Proof.
  intros Hf Hlo Hhi. rewrite (final_search_fetched E r s Hf).
  assert (Hc : Search.TotalPages (counted s) =
               Results.TotalResults (Search.Results s) ÷ 20).
  { unfold counted, totalPages, GoInt.quo, pageSize. simpl.
    apply roundtrip_exact.
    pose proof (Z.quot_pos (Results.TotalResults (Search.Results s)) 20
                  Hlo ltac:(lia)).
    lia. }
  unfold advanced. destruct (negb _); simpl; exact Hc.
Qed.

(** 45 results make 2 pages, not 3. *)
Lemma totalPages_45 :
  let E := ok_Env "bitcoin" "1" "45" in
  let r := search_request "bitcoin" "1" in
  Fetches E r (ok_fetched "bitcoin" 1 45) /\
  Search.TotalPages (final_search (serve (searchHandler E) r)) = 2.
Proof.
  assert (Hf : Fetches (ok_Env "bitcoin" "1" "45") (search_request "bitcoin" "1")
                 (ok_fetched "bitcoin" 1 45)) by fetches.
  split; [exact Hf|].
  apply (totalPages_truncates _ _ _ Hf); vm_compute; discriminate.
Defined.

(** C1, as the claim has it, fails where [float64] has no room for the
    quotient: 180143985094819860 results are 9007199254740993 pages of 20,
    and line 150 makes 9007199254740992 of them. *)
Lemma totalPages_rounds_2p53_plus_1 :
  let E := ok_Env "bitcoin" "1" "180143985094819860" in
  let r := search_request "bitcoin" "1" in
  let s := ok_fetched "bitcoin" 1 180143985094819860 in
  Fetches E r s /\
  0 <= Results.TotalResults (Search.Results s) /\
  Results.TotalResults (Search.Results s) ÷ 20 = 9007199254740993 /\
  Search.TotalPages (final_search (serve (searchHandler E) r)) = 9007199254740992 /\
  Search.TotalPages (final_search (serve (searchHandler E) r)) <>
    Results.TotalResults (Search.Results s) ÷ 20.
Proof.
  split; [fetches|].
  repeat split; vm_compute; congruence.
Qed.

(** C2.  After a successful fetch [NextPage] is one more than the page
    fetched when that page is not the last one as [IsLastPage] sees it after
    line 150, and the page fetched otherwise. *)
Theorem nextPage_advances (E : Env) (r : Request.t) (s : Search.t) :
  Env_wf E ->
  Fetches E r s ->
  Search.NextPage (final_search (serve (searchHandler E) r)) =
    if Search.IsLastPage (counted s)
    then Search.NextPage s
    else Search.NextPage s + 1.
Proof.
  intros Hwf Hf. rewrite (final_search_fetched E r s Hf).
  apply (advanced_exact (counted s)).
  - exact (Fetches_page_is_int E r s Hf).
  - apply totalPages_is_int, (Fetches_total_is_int E r s Hwf Hf).
Qed.

(** Page 1 of 3: the next page is 2. *)
Lemma nextPage_1_of_3 :
  let E := ok_Env "bitcoin" "1" "60" in
  let r := search_request "bitcoin" "1" in
  Fetches E r (ok_fetched "bitcoin" 1 60) /\
  Search.TotalPages (final_search (serve (searchHandler E) r)) = 3 /\
  Search.NextPage (final_search (serve (searchHandler E) r)) = 2.
Proof.
  assert (Hf : Fetches (ok_Env "bitcoin" "1" "60") (search_request "bitcoin" "1")
                 (ok_fetched "bitcoin" 1 60)) by fetches.
  split; [exact Hf|]. split; [vm_compute; reflexivity|].
  exact (nextPage_advances _ _ _ (example_Env_wf _ _) Hf).
Defined.

(** Page 3 of 3: the next page stays 3. *)
Example nextPage_3_of_3 :
  let E := ok_Env "bitcoin" "3" "60" in
  let σ := serve (searchHandler E) (search_request "bitcoin" "3") in
  Search.TotalPages (final_search σ) = 3 /\ Search.NextPage (final_search σ) = 3.
Proof. vm_compute. split; reflexivity. Qed.

(** C10.  When the page fetched is past the first and is the last one,
    [NextPage] stays the page fetched and [CurrentPage] is one less: the page
    shown as current is the one before the page that was fetched. *)
Theorem last_page_shown_one_less (E : Env) (r : Request.t) (s : Search.t) :
  Fetches E r s ->
  1 < Search.NextPage s ->
  Search.NextPage s >= Search.TotalPages (counted s) ->
  Search.NextPage (final_search (serve (searchHandler E) r)) = Search.NextPage s /\
  Search.CurrentPage (final_search (serve (searchHandler E) r)) =
    Search.NextPage s - 1.
Proof.
  intros Hf Hp Hlast. rewrite (final_search_fetched E r s Hf).
  pose proof (Fetches_page_is_int E r s Hf) as Hint.
  assert (Hl : Search.IsLastPage (counted s) = true).
  { unfold Search.IsLastPage. apply Z.leb_le. simpl in *. lia. }
  unfold advanced. rewrite Hl. simpl. split; [reflexivity|].
  unfold Search.CurrentPage. simpl.
  assert (Hne : (Search.NextPage s =? 1) = false) by (apply Z.eqb_neq; lia).
  rewrite Hne. apply sub_exact.
  unfold GoInt.is_int, GoInt.minInt, GoInt.maxInt, GoInt.intSize in *. lia.
Qed.

(** Page 3 of 3 is shown as page 2. *)
Lemma page_3_of_3_shown_as_2 :
  let E := ok_Env "bitcoin" "3" "60" in
  let r := search_request "bitcoin" "3" in
  Fetches E r (ok_fetched "bitcoin" 3 60) /\
  Search.NextPage (final_search (serve (searchHandler E) r)) = 3 /\
  Search.CurrentPage (final_search (serve (searchHandler E) r)) = 2.
Proof.
  assert (Hf : Fetches (ok_Env "bitcoin" "3" "60") (search_request "bitcoin" "3")
                 (ok_fetched "bitcoin" 3 60)) by fetches.
  split; [exact Hf|].
  apply (last_page_shown_one_less _ _ _ Hf); vm_compute; congruence.
Defined.

Lemma contains_prefix (s post : string) : contains (s +:+ post) s.
Proof. exists "", post. reflexivity. Qed.

(** C5.  When the upstream answers with a status other than 200, the
    handler decodes the error envelope of the body and answers with status
    500: with the envelope's message, verbatim and ended by a newline, when
    the envelope decodes, and with a generic message when it does not. *)
Theorem upstream_error_reported (E : Env) (r : Request.t) (resp : Response.t) :
  Answers E r resp ->
  Response.StatusCode resp <> 200 ->
  let w := writer (serve (searchHandler E) r) in
  ResponseWriter.status w = Some 500 /\
  match Decode_NewsAPIError E (Response.Body resp) with
  | (newError, None) =>
      ResponseWriter.body w = NewsAPIError.Message newError +:+ newline /\
      contains (ResponseWriter.body w) (NewsAPIError.Message newError)
  | (_, Some _) =>
      ResponseWriter.body w = "Unexpected server error" +:+ newline
  end.
Proof.
  intros (params & next & [Hu Ha] & Hg) Hs.
  rewrite (run_upstream_error E r params Hu next Ha resp Hg Hs). simpl.
  split; [reflexivity|].
  destruct (Decode_NewsAPIError E (Response.Body resp)) as [newError [err|]].
  - reflexivity.
  - split; [reflexivity|apply contains_prefix].
Qed.

(** The answer 401 with the envelope [apiKeyInvalid] is passed on as
    "Your API key is invalid". *)
Lemma apiKeyInvalid_reported :
  let E := example_Env (query "bitcoin" "1") (Some (Response.mk 401 apiKeyInvalid)) in
  let w := writer (serve (searchHandler E) (search_request "bitcoin" "1")) in
  ResponseWriter.status w = Some 500 /\
  ResponseWriter.body w = "Your API key is invalid" +:+ newline /\
  contains (ResponseWriter.body w) "Your API key is invalid".
Proof.
  refine (upstream_error_reported
            (example_Env (query "bitcoin" "1") (Some (Response.mk 401 apiKeyInvalid)))
            (search_request "bitcoin" "1") (Response.mk 401 apiKeyInvalid) _ _).
  - exists (query "bitcoin" "1"), 1. repeat split; vm_compute; reflexivity.
  - vm_compute. discriminate.
Defined.

(** C6, as the code has it.  A [page] parameter that is not empty and is
    not an integer is answered with status 500, and no request has gone to
    the upstream. *)
Theorem bad_page_not_fetched (E : Env) (r : Request.t)
    (params : gmap string (list string)) :
  url_Parse E (Request.URL r) = Some params ->
  Values_Get params "page" <> "" ->
  Atoi (Values_Get params "page") = None ->
  let σ := serve (searchHandler E) r in
  writer σ = ResponseWriter.mk (Some 500) ("Unexpected server error" +:+ newline) /\
  gets σ = [].
Proof.
  intros Hu Hp Ha.
  assert (Ha' : Atoi (page_param params) = None).
  { unfold page_param. apply String.eqb_neq in Hp. now rewrite Hp. }
  simpl. rewrite (run_page_error E r params Hu Ha'). split; reflexivity.
Qed.

(** [page=abc] *)
Lemma page_abc_not_fetched :
  let E := ok_Env "bitcoin" "abc" "45" in
  let σ := serve (searchHandler E) (search_request "bitcoin" "abc") in
  Atoi "abc" = None /\
  writer σ = ResponseWriter.mk (Some 500) ("Unexpected server error" +:+ newline) /\
  gets σ = [].
Proof.
  split; [reflexivity|].
  apply (bad_page_not_fetched (ok_Env "bitcoin" "abc" "45")
           (search_request "bitcoin" "abc") (query "bitcoin" "abc")).
  - reflexivity.
  - vm_compute. discriminate.
  - vm_compute. reflexivity.
Defined.

(** C6, as the claim has it, fails for a [page] parameter that is there and
    empty ([page=]): the empty text is not an integer, and lines 104-106 put
    ["1"] in its place, so that page 1 is fetched and the answer is 200. *)
Lemma empty_page_is_fetched :
  let E := ok_Env "bitcoin" "" "45" in
  let σ := serve (searchHandler E) (search_request "bitcoin" "") in
  Request.URL (search_request "bitcoin" "") = "/search?q=bitcoin&page=" /\
  query "bitcoin" "" !! "page" = Some [""] /\
  Atoi "" = None /\
  gets σ =
    ["https://newsapi.org/v2/everything?q=bitcoin&pageSize=20&page=1&apiKey=KEY&sortBy=publishedAt&language=en"] /\
  ResponseWriter.status (writer σ) = Some 200 /\
  ResponseWriter.status (writer σ) <> Some 500.
Proof. vm_compute. repeat split; congruence. Qed.

(** C7, at an answer 200 whose body is not JSON: the status is 500 and the
    body of the response is empty, where the claim has a generic message. *)
Lemma decode_error_says_nothing :
  let body := "<html>Bad Gateway</html>" in
  let E := example_Env (query "bitcoin" "1") (Some (Response.mk 200 body)) in
  let σ := serve (searchHandler E) (search_request "bitcoin" "1") in
  snd (Decode_Results E body) <> None /\
  gets σ <> [] /\
  writer σ = ResponseWriter.mk (Some 500) "".
Proof. vm_compute. repeat split; congruence. Qed.

(** The ways out of lines 94-98, 112-115, 124-128 and 135-141 all write a
    message. *)
Lemma other_errors_say_something (E : Env) (r : Request.t) :
  (url_Parse E (Request.URL r) = None ->
   ResponseWriter.body (writer (serve (searchHandler E) r)) = "Internal server error") /\
  (forall params,
     url_Parse E (Request.URL r) = Some params ->
     Atoi (page_param params) = None ->
     ResponseWriter.body (writer (serve (searchHandler E) r))
     = "Unexpected server error" +:+ newline) /\
  (forall params next,
     Asks E r params next ->
     http_Get E (endpoint E (asked params next)) = None ->
     ResponseWriter.body (writer (serve (searchHandler E) r)) = "Internal server error").
Proof.
  repeat split.
  - intros Hu. now rewrite (run_url_error E r Hu).
  - intros params Hu Ha. now rewrite (run_page_error E r params Hu Ha).
  - intros params next [Hu Ha] Hg.
    now rewrite (run_get_error E r params Hu next Ha Hg).
Qed.

(** Every run that gets past line 115 hands exactly [endpoint] to
    [http.Get]. *)
Lemma gets_asked (E : Env) (r : Request.t)
    (params : gmap string (list string)) (next : Z) :
  Asks E r params next ->
  gets (serve (searchHandler E) r) = [endpoint E (asked params next)].
Proof.
  intros [Hu Ha].
  destruct (http_Get E (endpoint E (asked params next))) as [resp|] eqn:Hg.
  2: now rewrite (run_get_error E r params Hu next Ha Hg).
  destruct (Z.eq_dec (Response.StatusCode resp) 200) as [Hs|Hs].
  2: now rewrite (run_upstream_error E r params Hu next Ha resp Hg Hs).
  destruct (Decode_Results E (Response.Body resp)) as [results [err|]] eqn:Hd.
  { assert (Hd' : snd (Decode_Results E (Response.Body resp)) = Some err)
      by now rewrite Hd.
    now rewrite (run_decode_error E r params Hu next Ha resp Hg err Hs Hd'). }
  destruct (Search.IsLastPage (counted (Search.set_Results results (asked params next))))
    eqn:Hl.
  - now rewrite (run_last_page E r params Hu next Ha resp Hg results Hd Hs Hl).
  - now rewrite (run_more_pages E r params Hu next Ha resp Hg results Hd Hs Hl).
Qed.

(** [q=bitcoin&page=2] *)
Example GET_bitcoin_page_2 :
  let E := ok_Env "bitcoin" "2" "45" in
  gets (serve (searchHandler E) (search_request "bitcoin" "2")) =
    ["https://newsapi.org/v2/everything?q=bitcoin&pageSize=20&page=2&apiKey=KEY&sortBy=publishedAt&language=en"].
Proof. vm_compute. reflexivity. Qed.

(** C9, as the claim has it, fails: the handler takes any [int] for the
    page.  With [page=0], [NextPage] is 0 right after the page is parsed (the
    third value of [*search]) and until line 153; and with [page=1] the fresh
    [Search{}] of line 108 has [NextPage] 0 until line 117. *)
Lemma page_0_is_accepted :
  let σ0 := serve (searchHandler (ok_Env "bitcoin" "0" "45"))
              (search_request "bitcoin" "0") in
  let σ1 := serve (searchHandler (ok_Env "bitcoin" "1" "45"))
              (search_request "bitcoin" "1") in
  Atoi "0" = Some 0 /\
  Search.NextPage <$> searches σ0 = [0; 0; 0; 0; 0; 1] /\
  Search.NextPage <$> searches σ1 = [0; 0; 1; 1; 1; 2] /\
  ~ Forall (fun s => Search.NextPage s >= 1) (drop 2 (searches σ0)) /\
  ~ Forall (fun s => Search.NextPage s >= 1) (searches σ1).
Proof.
  repeat split; try (vm_compute; reflexivity).
  - intros H. apply Forall_inv in H. vm_compute in H. congruence.
  - intros H. apply Forall_inv in H. vm_compute in H. congruence.
Qed.

(** C9, as the code has it.  When the page parses to an integer that is at
    least 1, [*search] is the fresh [Search{}], then the same with the key,
    and from line 117 to the end of the handler [NextPage >= 1]. *)
Theorem nextPage_positive_from_117 (E : Env) (r : Request.t)
    (params : gmap string (list string)) (next : Z) :
  Env_wf E ->
  Asks E r params next ->
  next >= 1 ->
  exists rest,
    searches (serve (searchHandler E) r) =
      Search.zero
        :: Search.set_SearchKey (Values_Get params "q") Search.zero
        :: asked params next :: rest /\
    Forall (fun s => Search.NextPage s >= 1) (asked params next :: rest).
Proof.
  intros Hwf [Hu Ha] Hn.
  destruct (http_Get E (endpoint E (asked params next))) as [resp|] eqn:Hg.
  2: { rewrite (run_get_error E r params Hu next Ha Hg). eexists. split;
       [reflexivity|]. repeat constructor. exact Hn. }
  destruct (Z.eq_dec (Response.StatusCode resp) 200) as [Hs|Hs].
  2: { rewrite (run_upstream_error E r params Hu next Ha resp Hg Hs).
       eexists. split; [reflexivity|]. repeat constructor. exact Hn. }
  destruct (Decode_Results E (Response.Body resp)) as [results [err|]] eqn:Hd.
  { assert (Hd' : snd (Decode_Results E (Response.Body resp)) = Some err)
      by now rewrite Hd.
    rewrite (run_decode_error E r params Hu next Ha resp Hg err Hs Hd').
    eexists. split; [reflexivity|]. repeat constructor; exact Hn. }
  destruct (Search.IsLastPage (counted (Search.set_Results results (asked params next))))
    eqn:Hl.
  - rewrite (run_last_page E r params Hu next Ha resp Hg results Hd Hs Hl).
    eexists. split; [reflexivity|]. repeat constructor; exact Hn.
  - rewrite (run_more_pages E r params Hu next Ha resp Hg results Hd Hs Hl).
    eexists. split; [reflexivity|]. repeat constructor; try exact Hn.
    cbn [Search.NextPage Search.set_NextPage].
    assert (Hadd : GoInt.add (Search.NextPage
                     (counted (Search.set_Results results (asked params next)))) 1
                   = next + 1).
    { apply add_exact. simpl.
      pose proof (Atoi_is_int _ _ Ha) as Hi.
      assert (Ht : GoInt.is_int (totalPages (Search.set_Results results (asked params next)))).
      { apply totalPages_is_int. simpl.
        specialize (Hwf (Response.Body resp)). now rewrite Hd in Hwf. }
      unfold Search.IsLastPage in Hl. apply Z.leb_gt in Hl. simpl in Hl.
      unfold GoInt.is_int in *. lia. }
    rewrite Hadd. lia.
Qed.

(** [page=2] *)
Lemma nextPage_positive_page_2 :
  let σ := serve (searchHandler (ok_Env "bitcoin" "2" "45"))
             (search_request "bitcoin" "2") in
  Atoi "2" = Some 2 /\
  exists rest,
    searches σ =
      Search.zero :: Search.set_SearchKey "bitcoin" Search.zero
        :: asked (query "bitcoin" "2") 2 :: rest /\
    Forall (fun s => Search.NextPage s >= 1) (asked (query "bitcoin" "2") 2 :: rest).
Proof.
  split; [reflexivity|].
  refine (nextPage_positive_from_117 (ok_Env "bitcoin" "2" "45")
            (search_request "bitcoin" "2") (query "bitcoin" "2") 2
            (example_Env_wf _ _) _ _).
  - split; vm_compute; reflexivity.
  - lia.
Defined.

(** ** What [QueryEscape] lets through *)

Lemma upperhex_unreserved (c : ascii) :
  shouldEscape (upperhex (N_of_ascii c / 16)) = false /\
  shouldEscape (upperhex (N_of_ascii c mod 16)) = false.
Proof.
  destruct c as [[] [] [] [] [] [] [] []]; split; vm_compute; reflexivity.
Qed.

(** An escaped term is made of unreserved bytes, [+] and [%]: it cannot
    close the parameter [q] or open another one. *)
Lemma QueryEscape_unreserved (s : string) :
  every_byte
    (fun c => negb (shouldEscape c) || Ascii.eqb c "+" || Ascii.eqb c "%")
    (QueryEscape s) = true.
Proof.
  induction s as [|c s IH]; [reflexivity|]. simpl.
  destruct (shouldEscape c) eqn:Hc.
  - destruct (Ascii.eqb c " ").
    + simpl. rewrite IH. reflexivity.
    + destruct (upperhex_unreserved c) as [Hhi Hlo]. simpl.
      rewrite Hhi, Hlo, IH. reflexivity.
  - simpl. rewrite Hc, IH. reflexivity.
Qed.

(** ** More examples *)

(** At the least [int] the subtraction of [CurrentPage] wraps around. *)
Example CurrentPage_least_int :
  Search.CurrentPage (Search.mk "" GoInt.minInt 0 Results.zero) = GoInt.maxInt.
Proof. reflexivity. Qed.

Example PreviousPage_first_page :
  Search.PreviousPage (Search.mk "bitcoin" 1 3 Results.zero) = 0.
Proof. reflexivity. Qed.

Example Atoi_examples :
  Atoi "abc" = None /\ Atoi "" = None /\ Atoi "1.5" = None /\
  Atoi " 2" = None /\ Atoi "-" = None /\
  Atoi "9223372036854775808" = None /\
  Atoi "+7" = Some 7 /\ Atoi "-3" = Some (-3) /\ Atoi "007" = Some 7.
Proof. repeat split; reflexivity. Qed.

Example QueryEscape_example :
  QueryEscape "rock & roll=fun/100%" = "rock+%26+roll%3Dfun%2F100%25".
Proof. reflexivity. Qed.

Example FormatPublishedDate_example :
  Article.FormatPublishedDate
    (Article.mk (Source.mk AnyNil "BBC") "" "" "" "" ""
       (Time.mk 2021 March 5) "")
  = "March 5, 2021".
Proof. reflexivity. Qed.

(** The index page: whatever the template writes, with status 200 as soon
    as it writes. *)
Example indexHandler_example :
  serve (indexHandler (example_Env ∅ None)) (Request.mk "/") =
    {| writer := ResponseWriter.mk (Some 200) "<html>";
       gets := []; logs := []; searches := [] |}.
Proof. reflexivity. Qed.

(** ** Decimal pages: [%d] and [strconv.Atoi] *)

Lemma digits_val_of_uint_acc (d : Decimal.uint) : forall acc : positive,
  digits_val (Z.pos acc) (NilEmpty.string_of_uint d)
  = Some (Z.pos (Pos.of_uint_acc d acc)).
Proof.
  induction d; intros acc; cbn [NilEmpty.string_of_uint Pos.of_uint_acc];
    [reflexivity|..];
    cbn [digits_val];
    match goal with
    | |- context [is_digit ?c] =>
        change (is_digit c) with true; cbv iota;
        rewrite <- IHd; f_equal; unfold digit_val; cbn [N_of_ascii]; simpl; lia
    end.
Qed.

Lemma digits_val_of_uint (d : Decimal.uint) :
  digits_val 0 (NilEmpty.string_of_uint d) = Some (Z.of_N (Pos.of_uint d)).
Proof.
  induction d; cbn [NilEmpty.string_of_uint Pos.of_uint];
    [reflexivity|..]; cbn [digits_val];
    match goal with
    | |- context [is_digit ?c] => change (is_digit c) with true; cbv iota
    end;
    [exact IHd|..]; apply digits_val_of_uint_acc.
Qed.

Lemma to_uint_not_Nil (p : positive) : Pos.to_uint p <> Decimal.Nil.
Proof.
  intros H. pose proof (DecimalPos.Unsigned.of_to p) as Hp.
  rewrite H in Hp. discriminate.
Qed.

(** The decimal of a positive number starts with a digit. *)
Lemma string_of_uint_head (d : Decimal.uint) :
  d <> Decimal.Nil ->
  exists c s, NilEmpty.string_of_uint d = String c s /\ is_digit c = true.
Proof.
  destruct d; [congruence|..]; intros _; eexists _, _; split; reflexivity.
Qed.

Lemma Atoi_unsigned (c : ascii) (s : string) :
  is_digit c = true ->
  Atoi (String c s) =
    match digits_val 0 (String c s) with
    | Some n => if n <=? GoInt.maxInt then Some n else None
    | None => None
    end.
Proof.
  destruct c as [[] [] [] [] [] [] [] []]; intros Hc;
    try discriminate Hc; reflexivity.
Qed.

Lemma Atoi_minus (c : ascii) (s : string) :
  Atoi (String "-" (String c s)) =
    match digits_val 0 (String c s) with
    | Some n => if n <=? - GoInt.minInt then Some (- n) else None
    | None => None
    end.
Proof. reflexivity. Qed.

Lemma Atoi_fmt_d (n : Z) : GoInt.is_int n -> Atoi (fmt_d n) = Some n.
Proof.
  intros Hn. unfold fmt_d. destruct n as [|p|p]; [reflexivity|..];
    cbn [Z.to_int NilZero.string_of_int];
    pose proof (to_uint_not_Nil p) as Hnil;
    pose proof (DecimalPos.Unsigned.of_to p) as Hval;
    pose proof (digits_val_of_uint (Pos.to_uint p)) as Hd;
    rewrite Hval in Hd;
    destruct (string_of_uint_head _ Hnil) as (c & s & Hs & Hc);
    assert (Hz : NilZero.string_of_uint (Pos.to_uint p) = String c s)
      by (unfold NilZero.string_of_uint; destruct (Pos.to_uint p); congruence);
    rewrite Hz; rewrite Hs in Hd.
  - rewrite (Atoi_unsigned c s Hc), Hd. simpl Z.of_N.
    assert (Hle : (Z.pos p <=? GoInt.maxInt) = true)
      by (apply Z.leb_le, Hn).
    now rewrite Hle.
  - rewrite Atoi_minus, Hd. simpl Z.of_N.
    assert (Hle : (Z.pos p <=? - GoInt.minInt) = true).
    { apply Z.leb_le. destruct Hn as [Hlo _]. lia. }
    now rewrite Hle.
Qed.


(** ** Strings cut at a separator *)

Lemma every_byte_impl (P Q : ascii -> bool) (s : string) :
  (forall c, P c = true -> Q c = true) ->
  every_byte P s = true -> every_byte Q s = true.
Proof.
  intros HPQ. induction s as [|c s IH]; simpl; [reflexivity|].
  intros H. apply andb_true_iff in H as [Hc Hs].
  rewrite (HPQ c Hc), (IH Hs). reflexivity.
Qed.

Lemma every_byte_app (P : ascii -> bool) (a b : string) :
  every_byte P (a +:+ b) = every_byte P a && every_byte P b.
Proof.
  induction a as [|c a IH]; simpl; [reflexivity|].
  rewrite IH. apply andb_assoc.
Qed.

Lemma append_inj_l (a x y : string) : a +:+ x = a +:+ y -> x = y.
Proof.
  induction a as [|c a IH]; simpl; [trivial|]. intros [= H]. exact (IH H).
Qed.

(** Two texts that agree, each cut at its first [sep], agree on both
    sides. *)
Lemma cut_at_separator (sep : ascii) (a b x y : string) :
  every_byte (fun c => negb (Ascii.eqb c sep)) a = true ->
  every_byte (fun c => negb (Ascii.eqb c sep)) b = true ->
  a +:+ String sep x = b +:+ String sep y ->
  a = b /\ x = y.
Proof.
  revert b. induction a as [|c a IH]; intros [|d b] Ha Hb; simpl in *.
  - intros [= H]. auto.
  - intros [= Hc _]. subst d. rewrite Ascii.eqb_refl in Hb. discriminate.
  - intros [= Hc _]. subst c. rewrite Ascii.eqb_refl in Ha. discriminate.
  - intros [= Hc H]. subst d.
    apply andb_true_iff in Ha as [_ Ha]. apply andb_true_iff in Hb as [_ Hb].
    destruct (IH b Ha Hb H) as [-> ->]. auto.
Qed.

(** ** [QueryEscape] loses nothing *)

Lemma hexval_upperhex (c : ascii) :
  ascii_of_N (hexval (upperhex (N_of_ascii c / 16)) * 16
              + hexval (upperhex (N_of_ascii c mod 16))) = c.
Proof. destruct c as [[] [] [] [] [] [] [] []]; reflexivity. Qed.

Lemma unreserved_not_special (c : ascii) :
  shouldEscape c = false ->
  Ascii.eqb c "+" = false /\ Ascii.eqb c "%" = false /\ Ascii.eqb c "&" = false.
Proof.
  destruct c as [[] [] [] [] [] [] [] []]; intros H;
    try discriminate H; repeat split; reflexivity.
Qed.

Lemma unescape_QueryEscape (s : string) : unescape (QueryEscape s) = s.
Proof.
  induction s as [|c s IH]; [reflexivity|]. cbn [QueryEscape].
  destruct (shouldEscape c) eqn:Hc.
  - destruct (Ascii.eqb c " ") eqn:Hsp.
    + apply Ascii.eqb_eq in Hsp. subst c. cbn. now rewrite IH.
    + cbn [unescape]. change (Ascii.eqb "%" "+") with false.
      change (Ascii.eqb "%" "%") with true. cbv iota.
      now rewrite hexval_upperhex, IH.
  - destruct (unreserved_not_special c Hc) as (Hplus & Hpct & _).
    cbn [unescape]. now rewrite Hplus, Hpct, IH.
Qed.

Lemma QueryEscape_no_ampersand (s : string) :
  every_byte (fun c => negb (Ascii.eqb c "&")) (QueryEscape s) = true.
Proof.
  refine (every_byte_impl _ _ _ _ (QueryEscape_unreserved s)).
  intros c. destruct c as [[] [] [] [] [] [] [] []]; intros H;
    try discriminate H; reflexivity.
Qed.

(** ** [%d] loses nothing either *)

Lemma fmt_d_inj (n m : Z) : fmt_d n = fmt_d m -> n = m.
Proof.
  unfold fmt_d. intros H.
  assert (Hnil : forall z, Z.to_int z <> Decimal.Pos Decimal.Nil /\
                           Z.to_int z <> Decimal.Neg Decimal.Nil).
  { intros [|p|p]; split; try discriminate;
      intros [= Hp]; exact (to_uint_not_Nil p Hp). }
  pose proof (NilZero.isi (Z.to_int n) (proj1 (Hnil n)) (proj2 (Hnil n))) as Hn.
  pose proof (NilZero.isi (Z.to_int m) (proj1 (Hnil m)) (proj2 (Hnil m))) as Hm.
  rewrite H, Hm in Hn. injection Hn as Hn.
  rewrite <- (DecimalZ.of_to n), <- (DecimalZ.of_to m). now rewrite Hn.
Qed.

Lemma string_of_uint_digits (d : Decimal.uint) :
  every_byte decimal_byte (NilEmpty.string_of_uint d) = true.
Proof. induction d; simpl; [reflexivity|..]; exact IHd. Qed.

Lemma fmt_d_decimal (n : Z) : every_byte decimal_byte (fmt_d n) = true.
Proof.
  assert (Hu : forall d, every_byte decimal_byte (NilZero.string_of_uint d) = true).
  { intros d. unfold NilZero.string_of_uint.
    destruct d; try reflexivity; apply (string_of_uint_digits (_ d)). }
  unfold fmt_d. destruct n as [|p|p]; [reflexivity|apply Hu|].
  cbn [Z.to_int NilZero.string_of_int every_byte]. now rewrite Hu.
Qed.

Lemma fmt_d_without (sep : ascii) (n : Z) :
  decimal_byte sep = false ->
  every_byte (fun c => negb (Ascii.eqb c sep)) (fmt_d n) = true.
Proof.
  intros Hsep. refine (every_byte_impl _ _ _ _ (fmt_d_decimal n)).
  intros c Hc. destruct (Ascii.eqb_spec c sep) as [->|]; [congruence|reflexivity].
Qed.

(** ** The upstream URL *)

Lemma Month_String_no_space (m : Month) :
  every_byte (fun c => negb (Ascii.eqb c " ")) (Month_String m) = true.
Proof. destruct m; reflexivity. Qed.

Lemma Month_String_inj (m m' : Month) : Month_String m = Month_String m' -> m = m'.
Proof. destruct m, m'; intros H; try discriminate H; reflexivity. Qed.

(** X1.  The text of a date determines the date: two articles whose dates
    are formatted alike were published in the same year, month and day. *)
Theorem FormatPublishedDate_inj (a b : Article.t) :
  Article.FormatPublishedDate a = Article.FormatPublishedDate b ->
  Time.Date (Article.PublishedAt a) = Time.Date (Article.PublishedAt b).
Proof.
  unfold Article.FormatPublishedDate, Time.Date.
  destruct (Article.PublishedAt a) as [y m d], (Article.PublishedAt b) as [y' m' d'].
  cbn [Time.year Time.month Time.day].
  change (" " +:+ ?x) with (String " " x).
  intros H.
  apply cut_at_separator in H as [Hm H]; try apply Month_String_no_space.
  apply Month_String_inj in Hm.
  change (fmt_d d +:+ String "," (String " " (fmt_d y))
          = fmt_d d' +:+ String "," (String " " (fmt_d y'))) in H.
  apply cut_at_separator in H as [Hd Hy]; try (apply fmt_d_without; reflexivity).
  injection Hy as Hy.
  apply fmt_d_inj in Hd, Hy. congruence.
Qed.

Lemma FormatPublishedDate_inj_example :
  let a := Article.mk (Source.mk AnyNil "BBC") "" "one" "" "" ""
             (Time.mk 2021 March 5) "" in
  let b := Article.mk (Source.mk (AnyString "cnn") "CNN") "" "two" "" "" ""
             (Time.mk 2021 March 5) "" in
  Article.FormatPublishedDate a = Article.FormatPublishedDate b /\
  Time.Date (Article.PublishedAt a) = Time.Date (Article.PublishedAt b).
Proof.
  split; [reflexivity|].
  apply FormatPublishedDate_inj. reflexivity.
Defined.

Lemma endpoint_shape (E : Env) (s : Search.t) :
  endpoint E s =
    "https://newsapi.org/v2/everything?q="
      +:+ (QueryEscape (Search.SearchKey s)
             +:+ String "&" ("pageSize=20&page="
                   +:+ (fmt_d (Search.NextPage s)
                          +:+ String "&" ("apiKey=" +:+ apiKey E
                                +:+ "&sortBy=publishedAt&language=en")))).
Proof. reflexivity. Qed.

(** X2.  The upstream URL determines the search: two states of [*search]
    that give the same URL have the same key and the same page.  No two
    searches are mixed up on the way to the upstream. *)
Theorem endpoint_inj (E : Env) (s s' : Search.t) :
  endpoint E s = endpoint E s' ->
  Search.SearchKey s = Search.SearchKey s' /\
  Search.NextPage s = Search.NextPage s'.
Proof.
  rewrite !endpoint_shape. intros H.
  apply append_inj_l in H.
  apply cut_at_separator in H as [Hq H]; try apply QueryEscape_no_ampersand.
  apply append_inj_l in H.
  apply cut_at_separator in H as [Hp _];
    try (apply fmt_d_without; reflexivity).
  split.
  - rewrite <- (unescape_QueryEscape (Search.SearchKey s)), Hq.
    apply unescape_QueryEscape.
  - exact (fmt_d_inj _ _ Hp).
Qed.

Lemma endpoint_inj_example :
  let E := ok_Env "bitcoin" "2" "45" in
  let s := asked (query "bitcoin" "2") 2 in
  let s' := Search.mk "bitcoin" 2 7 (Results.mk "ok" 140 []) in
  endpoint E s = endpoint E s' /\
  Search.SearchKey s = Search.SearchKey s' /\
  Search.NextPage s = Search.NextPage s'.
Proof.
  split; [reflexivity|].
  apply (endpoint_inj (ok_Env "bitcoin" "2" "45")). reflexivity.
Defined.

(** X3.  Whatever the search term, what stands for it in the URL is made of
    letters, digits, [-], [_], [.], [~], [+] and [%] only: the term cannot
    end the parameter [q], add a parameter or start a fragment. *)
Theorem term_stays_in_q (E : Env) (s : Search.t) :
  exists rest,
    endpoint E s =
      "https://newsapi.org/v2/everything?q="
        +:+ QueryEscape (Search.SearchKey s) +:+ String "&" rest /\
    every_byte
      (fun c => negb (shouldEscape c) || Ascii.eqb c "+" || Ascii.eqb c "%")
      (QueryEscape (Search.SearchKey s)) = true /\
    every_byte
      (fun c => negb (Ascii.eqb c "&" || Ascii.eqb c "=" || Ascii.eqb c "#"
                      || Ascii.eqb c "?" || Ascii.eqb c " " || Ascii.eqb c "/"))
      (QueryEscape (Search.SearchKey s)) = true.
Proof.
  eexists. split; [apply endpoint_shape|]. split.
  - apply QueryEscape_unreserved.
  - refine (every_byte_impl _ _ _ _ (QueryEscape_unreserved _)).
    intros c. destruct c as [[] [] [] [] [] [] [] []]; intros H;
      try discriminate H; reflexivity.
Qed.

(** ** The page parameter *)

Lemma Values_Get_missing (params : gmap string (list string)) (key : string) :
  params !! key = None -> Values_Get params key = "".
Proof. unfold Values_Get. now intros ->. Qed.



(** X5.  A request without a [page] parameter is a request for page 1, and
    without a [q] parameter a search for the empty term. *)
Theorem missing_page_is_page_1 (E : Env) (r : Request.t)
    (params : gmap string (list string)) :
  url_Parse E (Request.URL r) = Some params ->
  params !! "page" = None ->
  Asks E r params 1 /\
  gets (serve (searchHandler E) r) =
    ["https://newsapi.org/v2/everything?q="
       +:+ QueryEscape (Values_Get params "q")
       +:+ "&pageSize=20&page=1&apiKey=" +:+ apiKey E
       +:+ "&sortBy=publishedAt&language=en"] /\
  (params !! "q" = None ->
   gets (serve (searchHandler E) r) =
     ["https://newsapi.org/v2/everything?q=&pageSize=20&page=1&apiKey="
        +:+ apiKey E +:+ "&sortBy=publishedAt&language=en"]).
Proof.
  intros Hu Hp.
  assert (Ha : Asks E r params 1).
  { split; [exact Hu|]. unfold page_param.
    now rewrite (Values_Get_missing params "page" Hp). }
  split; [exact Ha|].
  rewrite (gets_asked E r params 1 Ha). split; [reflexivity|].
  intros Hq. unfold endpoint, asked. cbn [Search.SearchKey Search.NextPage].
  rewrite (Values_Get_missing params "q" Hq). reflexivity.
Qed.

Lemma missing_page_is_page_1_example :
  let E := example_Env {[ "q" := ["bitcoin"] ]} None in
  let r := Request.mk "/search?q=bitcoin" in
  Asks E r {[ "q" := ["bitcoin"] ]} 1 /\
  gets (serve (searchHandler E) r) =
    ["https://newsapi.org/v2/everything?q=bitcoin&pageSize=20&page=1&apiKey=KEY&sortBy=publishedAt&language=en"].
Proof.
  pose proof (missing_page_is_page_1 (example_Env {[ "q" := ["bitcoin"] ]} None)
                (Request.mk "/search?q=bitcoin") {[ "q" := ["bitcoin"] ]}
                eq_refl eq_refl) as (Ha & Hg & _).
  split; [exact Ha|exact Hg].
Defined.

(** X6.  The handler calls [http.Get] at most once and never calls it
    again: not at all when the URL or the page does not parse, and once
    otherwise, whatever that call returns.  (What [http.Get] does inside
    one call, such as following a redirect, is not the handler's.) *)
Theorem at_most_one_GET (E : Env) (r : Request.t) :
  (length (gets (serve (searchHandler E) r)) <= 1)%nat /\
  (gets (serve (searchHandler E) r) = [] <->
   ~ exists params next, Asks E r params next).
Proof.
  destruct (url_Parse E (Request.URL r)) as [params|] eqn:Hu.
  2: { rewrite (run_url_error E r Hu). split; [simpl; lia|].
       split; [|reflexivity]. intros _ (params & next & [Hu' _]). congruence. }
  destruct (Atoi (page_param params)) as [next|] eqn:Ha.
  2: { rewrite (run_page_error E r params Hu Ha). split; [simpl; lia|].
       split; [|reflexivity]. intros _ (params' & next & [Hu' Ha']).
       congruence. }
  rewrite (gets_asked E r params next (conj Hu Ha)). split; [simpl; lia|].
  split; [discriminate|]. intros H. exfalso. apply H. now exists params, next.
Qed.

(** ** The response *)

Lemma append_nil_r (a : string) : a +:+ "" = a.
Proof.
  induction a as [|c a IH]; [reflexivity|].
  change (String c (a +:+ "") = String c a). now rewrite IH.
Qed.

Lemma append_assoc (a b c : string) : (a +:+ b) +:+ c = a +:+ (b +:+ c).
Proof.
  induction a as [|x a IH]; [reflexivity|].
  change (String x ((a +:+ b) +:+ c) = String x (a +:+ (b +:+ c))).
  now rewrite IH.
Qed.

Lemma fold_Write (chunks : list string) : forall w : ResponseWriter.t,
  fold_left (fun w b => ResponseWriter.Write b w) chunks w =
    match chunks with
    | [] => w
    | _ :: _ =>
        ResponseWriter.mk
          (match ResponseWriter.status w with
           | Some code => Some code
           | None => Some 200
           end)
          (ResponseWriter.body w +:+ String.concat "" chunks)
    end.
Proof.
  induction chunks as [|b chunks IH]; intros w; [reflexivity|].
  cbn [fold_left]. rewrite IH.
  destruct w as [[code|] body];
    destruct chunks as [|b' chunks];
    cbn [ResponseWriter.Write ResponseWriter.WriteHeader ResponseWriter.status
         ResponseWriter.body String.concat];
    rewrite ?append_assoc, ?append_nil_r; reflexivity.
Qed.

Lemma rendered_status (E : Env) (f : Search.t) :
  ResponseWriter.status (rendered E f) =
    match fst (tpl_Execute E (Some f)) with
    | [] => None
    | _ :: _ => Some 200
    end /\
  ResponseWriter.body (rendered E f) =
    String.concat "" (fst (tpl_Execute E (Some f))).
Proof.
  unfold rendered. rewrite fold_Write.
  destruct (fst (tpl_Execute E (Some f))); split; reflexivity.
Qed.

Lemma Fetches_run (E : Env) (r : Request.t) (s : Search.t) :
  Fetches E r s ->
  writer (serve (searchHandler E) r) = rendered E (advanced (counted s)) /\
  logs (serve (searchHandler E) r) = complaints E (advanced (counted s)).
Proof.
  intros (params & next & resp & results & [Hu Ha] & Hg & Hs & Hd & ->).
  unfold advanced.
  destruct (Search.IsLastPage (counted (Search.set_Results results (asked params next))))
    eqn:Hl.
  - rewrite (run_last_page E r params Hu next Ha resp Hg results Hd Hs Hl).
    split; reflexivity.
  - rewrite (run_more_pages E r params Hu next Ha resp Hg results Hd Hs Hl).
    split; reflexivity.
Qed.

(** Every run is a successful fetch or ends at one of the five error
    exits, with status 500 and nothing logged. *)
Lemma fetched_or_failed (E : Env) (r : Request.t) :
  (exists s, Fetches E r s) \/
  ((~ exists s, Fetches E r s) /\
   ResponseWriter.status (writer (serve (searchHandler E) r)) = Some 500 /\
   logs (serve (searchHandler E) r) = []).
Proof.
  destruct (url_Parse E (Request.URL r)) as [params|] eqn:Hu.
  2: { right. rewrite (run_url_error E r Hu). repeat split.
       intros (s & p & n & rs & res & [Hu' _] & _). congruence. }
  destruct (Atoi (page_param params)) as [next|] eqn:Ha.
  2: { right. rewrite (run_page_error E r params Hu Ha). repeat split.
       intros (s & p & n & rs & res & [Hu' Ha'] & _). congruence. }
  destruct (http_Get E (endpoint E (asked params next))) as [resp|] eqn:Hg.
  2: { right. rewrite (run_get_error E r params Hu next Ha Hg). repeat split.
       intros (s & p & n & rs & res & [Hu' Ha'] & Hg' & _).
       rewrite Hu in Hu'. injection Hu' as <-. rewrite Ha in Ha'.
       injection Ha' as <-. congruence. }
  destruct (Z.eq_dec (Response.StatusCode resp) 200) as [Hs|Hs].
  2: { right. rewrite (run_upstream_error E r params Hu next Ha resp Hg Hs).
       repeat split.
       intros (s & p & n & rs & res & [Hu' Ha'] & Hg' & Hs' & _).
       rewrite Hu in Hu'. injection Hu' as <-. rewrite Ha in Ha'.
       injection Ha' as <-. rewrite Hg in Hg'. injection Hg' as <-.
       contradiction. }
  destruct (Decode_Results E (Response.Body resp)) as [results [err|]] eqn:Hd.
  { right.
    assert (Hd' : snd (Decode_Results E (Response.Body resp)) = Some err)
      by now rewrite Hd.
    rewrite (run_decode_error E r params Hu next Ha resp Hg err Hs Hd').
    repeat split.
    intros (s & p & n & rs & res & [Hu' Ha'] & Hg' & Hs' & Hd'' & _).
    rewrite Hu in Hu'. injection Hu' as <-. rewrite Ha in Ha'.
    injection Ha' as <-. rewrite Hg in Hg'. injection Hg' as <-.
    congruence. }
  left. eexists. exists params, next, resp, results. repeat split; eauto.
Qed.

(** X7.  The handler answers with status 500 exactly when the fetch does
    not succeed (the URL or the page does not parse, [http.Get] fails, the
    status is not 200 or the body does not decode), and then it logs
    nothing; after a successful fetch the status is 200, or unwritten when
    the template writes nothing. *)
Theorem status_500_iff_no_fetch (E : Env) (r : Request.t) :
  let σ := serve (searchHandler E) r in
  (ResponseWriter.status (writer σ) = Some 500 <-> ~ exists s, Fetches E r s) /\
  (ResponseWriter.status (writer σ) = Some 500 -> logs σ = []) /\
  (ResponseWriter.status (writer σ) = Some 500 \/
   ResponseWriter.status (writer σ) = Some 200 \/
   ResponseWriter.status (writer σ) = None).
Proof.
  cbv zeta.
  destruct (fetched_or_failed E r) as [[s Hf]|(Hno & H500 & Hlog)].
  - destruct (Fetches_run E r s Hf) as [Hw _].
    destruct (rendered_status E (advanced (counted s))) as [Hst _].
    rewrite Hw, Hst.
    destruct (fst (tpl_Execute E (Some (advanced (counted s)))));
      (split; [split; [discriminate|intros H; exfalso; apply H; eauto]|]);
      (split; [discriminate|auto]).
  - rewrite H500. repeat split; auto.
Qed.

(** X8.  After a successful fetch the template is run on the final
    [*search], which carries the raw search key and the results as decoded;
    the body of the response is what the template writes and nothing else,
    and an error of the template is logged without changing the status. *)
Theorem fetched_page_rendered (E : Env) (r : Request.t) (s : Search.t) :
  Fetches E r s ->
  let σ := serve (searchHandler E) r in
  let f := final_search σ in
  Search.SearchKey f = Search.SearchKey s /\
  Search.Results f = Search.Results s /\
  ResponseWriter.body (writer σ) = String.concat "" (fst (tpl_Execute E (Some f))) /\
  logs σ = match snd (tpl_Execute E (Some f)) with
           | Some e => [e]
           | None => []
           end /\
  ResponseWriter.status (writer σ) <> Some 500.
Proof.
  intros Hf. cbv zeta. rewrite (final_search_fetched E r s Hf).
  destruct (Fetches_run E r s Hf) as [Hw Hl].
  destruct (rendered_status E (advanced (counted s))) as [Hst Hb].
  rewrite Hw, Hl, Hb, Hst.
  repeat split.
  - unfold advanced. now destruct (negb _).
  - unfold advanced. now destruct (negb _).
  - destruct (fst (tpl_Execute E (Some (advanced (counted s))))); discriminate.
Qed.

Lemma fetched_page_rendered_example :
  let E := ok_Env "bitcoin" "1" "60" in
  let σ := serve (searchHandler E) (search_request "bitcoin" "1") in
  Search.SearchKey (final_search σ) = "bitcoin" /\
  Search.Results (final_search σ) = Results.mk "ok" 60 [] /\
  ResponseWriter.body (writer σ) = "<html>".
Proof.
  assert (Hf : Fetches (ok_Env "bitcoin" "1" "60") (search_request "bitcoin" "1")
                 (ok_fetched "bitcoin" 1 60)) by fetches.
  destruct (fetched_page_rendered _ _ _ Hf) as (Hk & Hr & Hb & _).
  repeat split; assumption.
Defined.

(** X9.  The index handler contacts nobody and reports nothing: the body is
    what the template writes, the status is 200 as soon as it writes, and an
    error of the template is neither logged nor turned into a status 500. *)
Theorem indexHandler_silent (E : Env) (r : Request.t) :
  let σ := serve (indexHandler E) r in
  gets σ = [] /\ logs σ = [] /\ searches σ = [] /\
  ResponseWriter.body (writer σ) = String.concat "" (fst (tpl_Execute E None)) /\
  ResponseWriter.status (writer σ) =
    match fst (tpl_Execute E None) with
    | [] => None
    | _ :: _ => Some 200
    end.
Proof.
  cbv zeta. unfold indexHandler. run.
  destruct (tpl_Execute E None) as [chunks err]. run.
  rewrite fold_Write. destruct chunks; repeat split; reflexivity.
Qed.

(** ** More on the pagination model *)

(** X10.  On a state whose [NextPage] is a page number (at least 1), the
    current page is a page number too and at most [NextPage], it is
    [NextPage] itself only at page 1, and the previous page is one less
    and not negative. *)
Theorem pages_of_valid_state (s : Search.t) :
  1 <= Search.NextPage s <= GoInt.maxInt ->
  1 <= Search.CurrentPage s <= Search.NextPage s /\
  (Search.CurrentPage s = Search.NextPage s <-> Search.NextPage s = 1) /\
  Search.PreviousPage s = Search.CurrentPage s - 1 /\
  0 <= Search.PreviousPage s.
Proof.
  intros Hn.
  assert (Hc : Search.CurrentPage s =
               if Search.NextPage s =? 1 then 1 else Search.NextPage s - 1).
  { unfold Search.CurrentPage.
    destruct (Z.eqb_spec (Search.NextPage s) 1) as [->|Hne]; [reflexivity|].
    apply sub_exact.
    unfold GoInt.is_int, GoInt.minInt, GoInt.maxInt, GoInt.intSize in *. lia. }
  assert (Hp : Search.PreviousPage s = Search.CurrentPage s - 1).
  { unfold Search.PreviousPage. apply sub_exact. rewrite Hc.
    unfold GoInt.is_int, GoInt.minInt, GoInt.maxInt, GoInt.intSize in *.
    destruct (Search.NextPage s =? 1); lia. }
  rewrite Hp, Hc.
  destruct (Z.eqb_spec (Search.NextPage s) 1); repeat split; lia.
Qed.

Lemma pages_of_page_5 :
  let s := Search.mk "bitcoin" 5 9 Results.zero in
  1 <= Search.CurrentPage s <= 5 /\ 0 <= Search.PreviousPage s.
Proof.
  destruct (pages_of_valid_state (Search.mk "bitcoin" 5 9 Results.zero))
    as (Hc & _ & _ & Hp).
  - cbn [Search.NextPage]. unfold GoInt.maxInt, GoInt.intSize. lia.
  - split; assumption.
Defined.

Lemma roundtrip_error (n : Z) : 2 ^ 53 * Z.abs (roundtrip n - n) <= Z.abs n.
Proof.
  unfold roundtrip, Float64.of_int, Float64.prec.
  destruct (Z.leb_spec (Z.log2 (Z.abs n) - (53 - 1)) 0) as [He|He].
  - unfold Float64.Ceil, Float64.to_int. simpl. lia.
  - assert (Ha : 0 < Z.abs n).
    { destruct (Z.eq_dec (Z.abs n) 0) as [H0|]; [|lia].
      rewrite H0 in He. simpl in He. lia. }
    pose proof (Z.log2_spec _ Ha) as [Hlo _].
    set (e := Z.log2 (Z.abs n) - (53 - 1)) in *.
    assert (Hl : 2 ^ Z.log2 (Z.abs n) = 2 ^ 53 * 2 ^ (e - 1)).
    { rewrite <- Z.pow_add_r by lia. f_equal. lia. }
    assert (Hu : 2 ^ e = 2 * 2 ^ (e - 1)).
    { rewrite <- (Z.pow_succ_r 2 (e - 1)) by lia. f_equal. lia. }
    assert (Hh : 0 < 2 ^ (e - 1)) by (apply Z.pow_pos_nonneg; lia).
    assert (Hhalf : 2 ^ e / 2 = 2 ^ (e - 1)).
    { rewrite Hu, Z.mul_comm. apply Z.div_mul. lia. }
    pose proof (Z.div_mod (Z.abs n) (2 ^ e) ltac:(lia)) as Hdm.
    pose proof (Z.mod_pos_bound (Z.abs n) (2 ^ e) ltac:(lia)) as Hr.
    cbv zeta. rewrite Hhalf.
    set (q := Z.abs n / 2 ^ e) in *. set (m := Z.abs n mod 2 ^ e) in *.
    set (q' := if m <? 2 ^ (e - 1) then q
               else if 2 ^ (e - 1) <? m then q + 1
               else if Z.even q then q else q + 1).
    assert (Hq' : Z.abs (q' * 2 ^ e - Z.abs n) <= 2 ^ (e - 1)).
    { subst q'.
      destruct (Z.ltb_spec m (2 ^ (e - 1)));
        [|destruct (Z.ltb_spec (2 ^ (e - 1)) m); [|destruct (Z.even q)]];
        nia. }
    assert (Hpos : (0 <=? e) = true) by (apply Z.leb_le; lia).
    unfold Float64.Ceil, Float64.to_int. cbn [Float64.expo Float64.mant].
    rewrite Hpos. cbn [Float64.expo Float64.mant]. rewrite Hpos.
    assert (Hd : Z.abs (Z.sgn n * q' * 2 ^ e - n) = Z.abs (q' * 2 ^ e - Z.abs n)).
    { destruct (Z.abs_spec n) as [[Hs Hn]|[Hs Hn]].
      - assert (Z.sgn n = 1) as -> by lia. rewrite Hn. f_equal. lia.
      - assert (Z.sgn n = -1) as -> by lia. rewrite Hn.
        rewrite <- (Z.abs_opp (q' * 2 ^ e - - n)). f_equal. lia. }
    rewrite Hd. nia.
Qed.

Lemma roundtrip_sign (n : Z) : 0 <= n -> 0 <= roundtrip n.
Proof.
  intros Hn. pose proof (roundtrip_error n) as He.
  destruct (Z.eq_dec n 0) as [->|Hne]; [vm_compute; discriminate|].
  assert (H53 : 2 ^ 53 = 9007199254740992) by reflexivity.
  rewrite H53 in He. lia.
Qed.

(** X11.  Line 150 on any [int]: the page count is an [int] again (the
    conversion back from [float64] is always defined), it has the sign of
    the count of results, and it differs from the truncated quotient by at
    most one part in 2^53 of it. *)
Theorem totalPages_close (s : Search.t) :
  GoInt.is_int (Results.TotalResults (Search.Results s)) ->
  GoInt.is_int (totalPages s) /\
  2 ^ 53 * Z.abs (totalPages s - Results.TotalResults (Search.Results s) ÷ 20)
    <= Z.abs (Results.TotalResults (Search.Results s) ÷ 20) /\
  (0 <= Results.TotalResults (Search.Results s) -> 0 <= totalPages s).
Proof.
  intros Hi. split; [exact (totalPages_is_int s Hi)|].
  unfold totalPages, GoInt.quo, pageSize.
  fold (roundtrip (Results.TotalResults (Search.Results s) ÷ 20)).
  split; [apply roundtrip_error|].
  intros H0. apply roundtrip_sign. apply Z.quot_pos; lia.
Qed.

Lemma totalPages_close_example :
  let s := ok_fetched "bitcoin" 1 180143985094819860 in
  GoInt.is_int (totalPages s) /\
  2 ^ 53 * Z.abs (totalPages s - 9007199254740993) <= 9007199254740993.
Proof.
  destruct (totalPages_close (ok_fetched "bitcoin" 1 180143985094819860))
    as (Hi & He & _).
  - unfold GoInt.is_int, GoInt.minInt, GoInt.maxInt, GoInt.intSize.
    cbn [ok_fetched Search.Results Results.TotalResults]. lia.
  - split; [exact Hi|exact He].
Defined.

(** ** The pages after a fetch *)

(** X12.  When more pages remain after the fetch of page [p >= 1], the final
    state is the one of a reader at page [p]: the next page is [p + 1], the
    current page is the page fetched and the previous page is [p - 1]. *)
Theorem shown_page_is_fetched_page (E : Env) (r : Request.t) (s : Search.t) :
  Env_wf E ->
  Fetches E r s ->
  1 <= Search.NextPage s ->
  Search.IsLastPage (counted s) = false ->
  let f := final_search (serve (searchHandler E) r) in
  Search.NextPage f = Search.NextPage s + 1 /\
  Search.CurrentPage f = Search.NextPage s /\
  Search.PreviousPage f = Search.NextPage s - 1.
Proof.
  intros Hwf Hf Hp Hl. cbv zeta. rewrite (final_search_fetched E r s Hf).
  pose proof (Fetches_page_is_int E r s Hf) as Hi.
  pose proof (totalPages_is_int s (Fetches_total_is_int E r s Hwf Hf)) as Ht.
  pose proof (advanced_exact (counted s) Hi Ht) as Hn. rewrite Hl in Hn.
  cbn [counted Search.NextPage Search.set_TotalPages] in Hn.
  assert (Hlt : Search.NextPage s < totalPages s).
  { unfold Search.IsLastPage in Hl. apply Z.leb_gt in Hl. exact Hl. }
  assert (Hc : Search.CurrentPage (advanced (counted s)) = Search.NextPage s).
  { unfold Search.CurrentPage. rewrite Hn.
    destruct (Z.eqb_spec (Search.NextPage s + 1) 1) as [H1|_]; [lia|].
    rewrite sub_exact; [lia|].
    unfold GoInt.is_int, GoInt.minInt, GoInt.maxInt, GoInt.intSize in *. lia. }
  repeat split; [exact Hn|exact Hc|].
  unfold Search.PreviousPage. rewrite Hc. apply sub_exact.
  unfold GoInt.is_int, GoInt.minInt, GoInt.maxInt, GoInt.intSize in *. lia.
Qed.

Lemma shown_page_2_of_5 :
  let E := ok_Env "bitcoin" "2" "100" in
  let f := final_search (serve (searchHandler E) (search_request "bitcoin" "2")) in
  Search.NextPage f = 3 /\ Search.CurrentPage f = 2 /\ Search.PreviousPage f = 1.
Proof.
  assert (Hf : Fetches (ok_Env "bitcoin" "2" "100") (search_request "bitcoin" "2")
                 (ok_fetched "bitcoin" 2 100)) by fetches.
  apply (shown_page_is_fetched_page _ _ _ (example_Env_wf _ _) Hf).
  - cbn [ok_fetched Search.NextPage]. lia.
  - reflexivity.
Defined.

(** X13.  After a successful fetch of page [p] the final state is on its
    last page exactly when [p + 1 >= TotalPages]: already the page before
    the last one ends the pagination. *)
Theorem last_page_after_fetch (E : Env) (r : Request.t) (s : Search.t) :
  Env_wf E ->
  Fetches E r s ->
  let f := final_search (serve (searchHandler E) r) in
  Search.TotalPages f = totalPages s /\
  (Search.IsLastPage f = true <-> Search.NextPage s + 1 >= Search.TotalPages f).
Proof.
  intros Hwf Hf. cbv zeta. rewrite (final_search_fetched E r s Hf).
  pose proof (Fetches_page_is_int E r s Hf) as Hi.
  pose proof (totalPages_is_int s (Fetches_total_is_int E r s Hwf Hf)) as Ht.
  pose proof (advanced_exact (counted s) Hi Ht) as Hn.
  assert (HT : Search.TotalPages (advanced (counted s)) = totalPages s).
  { unfold advanced. now destruct (negb _). }
  split; [exact HT|].
  unfold Search.IsLastPage at 1. rewrite HT, Z.leb_le, Hn.
  cbn [counted Search.NextPage Search.set_TotalPages].
  destruct (Search.IsLastPage (counted s)) eqn:Hl;
    unfold Search.IsLastPage in Hl; cbn in Hl;
    [apply Z.leb_le in Hl|apply Z.leb_gt in Hl]; lia.
Qed.

Lemma last_page_after_page_2_of_3 :
  let E := ok_Env "bitcoin" "2" "60" in
  let f := final_search (serve (searchHandler E) (search_request "bitcoin" "2")) in
  Search.TotalPages f = 3 /\ Search.IsLastPage f = true.
Proof.
  assert (Hf : Fetches (ok_Env "bitcoin" "2" "60") (search_request "bitcoin" "2")
                 (ok_fetched "bitcoin" 2 60)) by fetches.
  destruct (last_page_after_fetch _ _ _ (example_Env_wf _ _) Hf) as [HT Hl].
  split; [exact HT|]. apply Hl. vm_compute. discriminate.
Defined.

(** X14.  Fewer than 20 results make no page at all: [TotalPages] is 0, so
    every page from 0 on is the last one and [NextPage] is left as asked. *)
Theorem under_a_page (E : Env) (r : Request.t) (s : Search.t) :
  Fetches E r s ->
  -20 < Results.TotalResults (Search.Results s) < 20 ->
  let f := final_search (serve (searchHandler E) r) in
  Search.TotalPages f = 0 /\
  (0 <= Search.NextPage s ->
   Search.NextPage f = Search.NextPage s /\ Search.IsLastPage f = true).
Proof.
  intros Hf Hr. cbv zeta. rewrite (final_search_fetched E r s Hf).
  assert (Hq : Results.TotalResults (Search.Results s) ÷ 20 = 0)
    by (apply Z.quot_small_iff; lia).
  assert (Ht : totalPages s = 0).
  { unfold totalPages, GoInt.quo, pageSize. rewrite Hq. reflexivity. }
  assert (HT : Search.TotalPages (advanced (counted s)) = 0).
  { unfold advanced. destruct (negb _); exact Ht. }
  split; [exact HT|]. intros Hp.
  assert (Hl : Search.IsLastPage (counted s) = true).
  { unfold Search.IsLastPage. apply Z.leb_le. cbn. lia. }
  unfold advanced. rewrite Hl. cbn [negb]. split; [reflexivity|exact Hl].
Qed.

Lemma under_a_page_example :
  let E := ok_Env "bitcoin" "1" "19" in
  let f := final_search (serve (searchHandler E) (search_request "bitcoin" "1")) in
  Search.TotalPages f = 0 /\ Search.NextPage f = 1 /\ Search.IsLastPage f = true.
Proof.
  assert (Hf : Fetches (ok_Env "bitcoin" "1" "19") (search_request "bitcoin" "1")
                 (ok_fetched "bitcoin" 1 19)) by fetches.
  destruct (under_a_page _ _ _ Hf) as [HT Hrest].
  - cbn [ok_fetched Search.Results Results.TotalResults]. lia.
  - split; [exact HT|]. apply Hrest. cbn [ok_fetched Search.NextPage]. lia.
Defined.

(** ** The pages that get past line 115 *)

Lemma digits_val_digits (s : string) : forall acc n,
  digits_val acc s = Some n -> every_byte is_digit s = true.
Proof.
  induction s as [|c s IH]; intros acc n; cbn [digits_val every_byte];
    [reflexivity|].
  destruct (is_digit c); [|discriminate]. intros H. exact (IH _ _ H).
Qed.

Lemma Atoi_plus (c : ascii) (s : string) :
  Atoi (String "+" (String c s)) =
    match digits_val 0 (String c s) with
    | Some n => if n <=? GoInt.maxInt then Some n else None
    | None => None
    end.
Proof. reflexivity. Qed.

Lemma Atoi_other (c : ascii) (s : string) :
  is_digit c = false -> Ascii.eqb c "-" = false -> Ascii.eqb c "+" = false ->
  Atoi (String c s) = None.
Proof.
  destruct c as [[] [] [] [] [] [] [] []]; intros Hd Hm Hp;
    try discriminate; reflexivity.
Qed.

(** A text that [strconv.Atoi] takes at line 111 is an optional sign [+]
    or [-] followed by one digit or more and nothing else. *)
Lemma page_must_be_decimal (E : Env) (r : Request.t)
    (params : gmap string (list string)) (next : Z) :
  Asks E r params next ->
  GoInt.is_int next /\
  exists sign digits,
    page_param params = sign +:+ digits /\
    (sign = "" \/ sign = "+" \/ sign = "-") /\
    digits <> "" /\
    every_byte is_digit digits = true.
Proof.
  intros [_ Ha]. split; [exact (Atoi_is_int _ _ Ha)|].
  destruct (page_param params) as [|c s]; [discriminate Ha|].
  destruct (is_digit c) eqn:Hd.
  - exists "", (String c s). rewrite (Atoi_unsigned c s Hd) in Ha.
    destruct (digits_val 0 (String c s)) as [v|] eqn:Hv; [|discriminate].
    split; [reflexivity|]. split; [auto|]. split; [discriminate|].
    exact (digits_val_digits _ _ _ Hv).
  - destruct (Ascii.eqb_spec c "-") as [->|Hm].
    + destruct s as [|d s]; [discriminate Ha|]. rewrite Atoi_minus in Ha.
      destruct (digits_val 0 (String d s)) as [v|] eqn:Hv; [|discriminate].
      exists "-", (String d s).
      split; [reflexivity|]. split; [auto|]. split; [discriminate|].
    exact (digits_val_digits _ _ _ Hv).
    + destruct (Ascii.eqb_spec c "+") as [->|Hp].
      * destruct s as [|d s]; [discriminate Ha|]. rewrite Atoi_plus in Ha.
        destruct (digits_val 0 (String d s)) as [v|] eqn:Hv; [|discriminate].
        exists "+", (String d s).
        split; [reflexivity|]. split; [auto|]. split; [discriminate|].
    exact (digits_val_digits _ _ _ Hv).
      * rewrite Atoi_other in Ha; [discriminate|assumption|..];
          now apply Ascii.eqb_neq.
Qed.

(** X15.  The handler calls [http.Get] only for a decimal page: whenever a
    URL has been handed to [http.Get], the page text parsed at line 111 is an
    optional sign [+] or [-] followed by one digit or more and nothing else,
    it stands for an [int], and that [int] is the page of the URL.  Every
    other page text ends at line 113 before the upstream is asked. *)
Theorem only_decimal_pages_fetched (E : Env) (r : Request.t) :
  gets (serve (searchHandler E) r) <> [] ->
  exists params sign digits next,
    url_Parse E (Request.URL r) = Some params /\
    page_param params = sign +:+ digits /\
    (sign = "" \/ sign = "+" \/ sign = "-") /\
    digits <> "" /\
    every_byte is_digit digits = true /\
    Atoi (page_param params) = Some next /\
    GoInt.is_int next /\
    gets (serve (searchHandler E) r) =
      ["https://newsapi.org/v2/everything?q="
         +:+ QueryEscape (Values_Get params "q")
         +:+ "&pageSize=20&page=" +:+ fmt_d next
         +:+ "&apiKey=" +:+ apiKey E
         +:+ "&sortBy=publishedAt&language=en"].
Proof.
  intros Hg.
  destruct (url_Parse E (Request.URL r)) as [params|] eqn:Hu.
  2: { exfalso. apply Hg. now rewrite (run_url_error E r Hu). }
  destruct (Atoi (page_param params)) as [next|] eqn:Ha.
  2: { exfalso. apply Hg. now rewrite (run_page_error E r params Hu Ha). }
  destruct (page_must_be_decimal E r params next (conj Hu Ha))
    as (Hi & sign & digits & Hp & Hs & Hd & Hb).
  exists params, sign, digits, next.
  do 7 (split; [first [assumption|reflexivity]|]).
  rewrite (gets_asked E r params next (conj Hu Ha)). reflexivity.
Qed.

(** [page=-7] *)
Lemma page_minus_7_fetched :
  let E := ok_Env "bitcoin" "-7" "45" in
  let r := search_request "bitcoin" "-7" in
  Request.URL r = "/search?q=bitcoin&page=-7" /\
  gets (serve (searchHandler E) r) <> [] /\
  exists params sign digits next,
    url_Parse E (Request.URL r) = Some params /\
    page_param params = sign +:+ digits /\
    (sign = "" \/ sign = "+" \/ sign = "-") /\
    digits <> "" /\
    every_byte is_digit digits = true /\
    Atoi (page_param params) = Some next /\
    GoInt.is_int next /\
    gets (serve (searchHandler E) r) =
      ["https://newsapi.org/v2/everything?q="
         +:+ QueryEscape (Values_Get params "q")
         +:+ "&pageSize=20&page=" +:+ fmt_d next
         +:+ "&apiKey=" +:+ apiKey E
         +:+ "&sortBy=publishedAt&language=en"].
Proof.
  assert (Hg : gets (serve (searchHandler (ok_Env "bitcoin" "-7" "45"))
                       (search_request "bitcoin" "-7")) <> [])
    by (vm_compute; discriminate).
  split; [reflexivity|]. split; [exact Hg|].
  exact (only_decimal_pages_fetched _ _ Hg).
Defined.

(** ** The search term on its way to the upstream *)

(** C8.  For the search term [q] and the parsed page the handler hands one
    URL to [http.Get]: the endpoint [everything] with the term, the page size
    20, the page in decimal, the API key, the order [publishedAt] and the
    language [en].  The term is escaped: what stands for it has unreserved
    bytes, [+] and [%] only, hence none of [&], [=], [#], [?], [/] and no
    space, and the term is read back from it; the page is read back from
    its decimal. *)
Theorem one_GET_everything (E : Env) (r : Request.t)
    (params : gmap string (list string)) (next : Z) :
  Asks E r params next ->
  let term := QueryEscape (Values_Get params "q") in
  gets (serve (searchHandler E) r) =
    ["https://newsapi.org/v2/everything?q="
       +:+ term
       +:+ "&pageSize=20&page=" +:+ fmt_d next
       +:+ "&apiKey=" +:+ apiKey E
       +:+ "&sortBy=publishedAt&language=en"] /\
  every_byte
    (fun c => negb (shouldEscape c) || Ascii.eqb c "+" || Ascii.eqb c "%")
    term = true /\
  every_byte
    (fun c => negb (Ascii.eqb c "&" || Ascii.eqb c "=" || Ascii.eqb c "#"
                    || Ascii.eqb c "?" || Ascii.eqb c " " || Ascii.eqb c "/"))
    term = true /\
  unescape term = Values_Get params "q" /\
  Atoi (fmt_d next) = Some next.
Proof.
  intros Ha. cbv zeta. split.
  { rewrite (gets_asked E r params next Ha). reflexivity. }
  split; [apply QueryEscape_unreserved|]. split.
  { refine (every_byte_impl _ _ _ _ (QueryEscape_unreserved _)).
    intros c. destruct c as [[] [] [] [] [] [] [] []]; intros H;
      try discriminate H; reflexivity. }
  split; [apply unescape_QueryEscape|].
  destruct Ha as [_ Ha]. exact (Atoi_fmt_d next (Atoi_is_int _ _ Ha)).
Qed.

(** The term [rock & roll=1#], sent by a browser as
    [q=rock+%26+roll%3D1%23], goes to the upstream escaped again. *)
Lemma GET_escaped_term_page_2 :
  let params : gmap string (list string) :=
    {[ "q" := ["rock & roll=1#"]; "page" := ["2"] ]} in
  let E := example_Env params None in
  let r := Request.mk "/search?q=rock+%26+roll%3D1%23&page=2" in
  Asks E r params 2 /\
  gets (serve (searchHandler E) r) =
    ["https://newsapi.org/v2/everything?q=rock+%26+roll%3D1%23&pageSize=20&page=2&apiKey=KEY&sortBy=publishedAt&language=en"] /\
  unescape "rock+%26+roll%3D1%23" = "rock & roll=1#".
Proof.
  assert (Ha : Asks (example_Env {[ "q" := ["rock & roll=1#"]; "page" := ["2"] ]} None)
                 (Request.mk "/search?q=rock+%26+roll%3D1%23&page=2")
                 {[ "q" := ["rock & roll=1#"]; "page" := ["2"] ]} 2)
    by (split; vm_compute; reflexivity).
  destruct (one_GET_everything _ _ _ _ Ha) as (Hg & _ & _ & Hu & _).
  split; [exact Ha|]. split; [exact Hg|exact Hu].
Defined.
